(** * htmlPy.base_gui: the window wrapper and its persistent script settings

    A shallow embedding of [htmlPy/base_gui.py].  The Qt toolkit is the
    external collaborator: a widget is a record of the state the wrapper can
    read back, together with the log of the mutating calls it received.
    Methods of [BaseGUI] are computations in a state-and-exception monad over
    the instance. *)

From Stdlib Require Import ZArith List String Bool Lia.
Import ListNotations.

Local Open Scope string_scope.
Local Open Scope list_scope.

(** ** Python values and strings *)

(** The few Python values the wrapper tests for truth. *)
Inductive pyval : Type :=
| PyNone
| PyBool (b : bool)
| PyInt (z : Z)
| PyStr (s : string).

(** Truth value testing, as [and] and [if] apply it. *)
Definition truthy (v : pyval) : bool :=
  match v with
  | PyNone => false
  | PyBool b => b
  | PyInt z => negb (z =? 0)%Z
  | PyStr s => negb (s =? "")
  end.

(** [sep.join(l)] *)
Fixpoint join (sep : string) (l : list string) : string :=
  match l with
  | [] => ""
  | s :: rest =>
      match rest with
      | [] => s
      | _ :: _ => s ++ sep ++ join sep rest
      end
  end.

(** Exceptions raised in [base_gui.py], and the one the toolkit's bindings
    raise when an integer argument does not fit a C [int] (its text is
    theirs). *)
Inductive exn : Type :=
| ValueError (msg : string)
| RuntimeError (msg : string)
| OverflowError.

Inductive result (A : Type) : Type :=
| Return (a : A)
| Raise (e : exn).
Arguments Return {A} a.
Arguments Raise {A} e.

(** [needle in haystack] on strings. *)
Definition contains (haystack needle : string) : bool :=
  match String.index 0 needle haystack with
  | Some _ => true
  | None => false
  end.

(** ** The dict of script settings

    A Python dict with string keys.  Lookup, assignment and [pop] are those
    of any Python; the order of the entries is insertion order, as dicts
    keep it from Python 3.7 on (assigning to a key that is present keeps its
    place, a new key goes last).  An older interpreter iterates in the order
    of its hash table instead; the properties below do not rest on which of
    two scripts comes first. *)
Module Dict.

Definition t : Type := list (string * string).

Definition empty : t := [].

Fixpoint get (k : string) (d : t) : option string :=
  match d with
  | [] => None
  | (k', v) :: rest => if k =? k' then Some v else get k rest
  end.

(** [d[k] = v] *)
Fixpoint setitem (k v : string) (d : t) : t :=
  match d with
  | [] => [(k, v)]
  | (k', v') :: rest =>
      if k =? k' then (k', v) :: rest else (k', v') :: setitem k v rest
  end.

(** [d.pop(k, None)], the popped value dropped: the entry of [k] goes, and
    nothing happens when there is none.  A dict holds a key at most once, so
    at most one entry goes. *)
Fixpoint pop (k : string) (d : t) : t :=
  match d with
  | [] => []
  | (k', v') :: rest =>
      if k =? k' then pop k rest else (k', v') :: pop k rest
  end.

Definition keys (d : t) : list string := map fst d.
Definition values (d : t) : list string := map snd d.

End Dict.

(** ** The toolkit: application singleton and web view widget *)

Record QApplication : Type := mkQApplication {
  qapp_serial : nat;               (* which construction made this object *)
  qapp_argv : list string
}.

(** Process-wide state: [QApplication.instance()], [sys.argv], and how many
    [QApplication] objects were constructed so far. *)
Record process : Type := mkProcess {
  instance : option QApplication;
  sys_argv : list string;
  constructed : nat
}.

(** [QApplication(argv)]: a new object, registered as the instance. *)
Definition QApplication_new (argv : list string) (p : process)
  : QApplication * process :=
  let a := mkQApplication (constructed p) argv in
  (a, mkProcess (Some a) (sys_argv p) (S (constructed p))).

Inductive WebAttribute : Type :=
| LocalContentCanAccessRemoteUrls
| PluginsEnabled
| DeveloperExtrasEnabled.

Definition WebAttribute_eqb (a b : WebAttribute) : bool :=
  match a, b with
  | LocalContentCanAccessRemoteUrls, LocalContentCanAccessRemoteUrls => true
  | PluginsEnabled, PluginsEnabled => true
  | DeveloperExtrasEnabled, DeveloperExtrasEnabled => true
  | _, _ => false
  end.

(** Mutating calls received by the widget, oldest first. *)
Inductive widget_call : Type :=
| CallSetWindowTitle (s : string)
| CallShowMaximized
| CallShowNormal
| CallResize (w h : Z)
| CallMove (x y : Z)
| CallSetAttribute (a : WebAttribute) (on : bool)
| CallEvaluateJavaScript (script : string).

(** Slots of this module that get connected to widget signals. *)
Inductive slot : Type :=
| slot_adjustTitle
| slot_javascript_setting_call.

Module Browser.

(** A [QWebView] as the wrapper sees it. *)
Record t : Type := mk {
  windowTitle : string;            (* the window chrome title *)
  title : string;                  (* the title of the hosted page *)
  isMaximized : bool;
  isVisible : bool;
  size : Z * Z;
  pos : Z * Z;
  attributes : WebAttribute -> bool;
  titleChanged : list slot;        (* connections of the signal *)
  loadFinished : list slot;
  calls : list widget_call
}.

Definition log (c : widget_call) (b : t) : list widget_call :=
  calls b ++ [c].

(** [QWebView.__init__]: a hidden, untitled widget with the toolkit's
    defaults and nothing connected. *)
Definition QWebView_init : t :=
  mk "" "" false false (640, 480)%Z (0, 0)%Z (fun _ => false) [] [] [].

Definition setWindowTitle (s : string) (b : t) : t :=
  mk s (title b) (isMaximized b) (isVisible b) (size b) (pos b)
     (attributes b) (titleChanged b) (loadFinished b)
     (log (CallSetWindowTitle s) b).

Definition showMaximized (b : t) : t :=
  mk (windowTitle b) (title b) true true (size b) (pos b)
     (attributes b) (titleChanged b) (loadFinished b)
     (log CallShowMaximized b).

Definition showNormal (b : t) : t :=
  mk (windowTitle b) (title b) false true (size b) (pos b)
     (attributes b) (titleChanged b) (loadFinished b)
     (log CallShowNormal b).

(** The largest size of a widget, and the size a widget takes when asked
    for [z]: a size is kept between the minimum size (0 unless set, and the
    wrapper sets none) and the maximum size. *)
Definition QWIDGETSIZE_MAX : Z := 16777215.

Definition bounded (z : Z) : Z := Z.max 0 (Z.min z QWIDGETSIZE_MAX).

(** [resize(w, h)], for [w] and [h] that reached the widget. *)
Definition resize (w h : Z) (b : t) : t :=
  mk (windowTitle b) (title b) (isMaximized b) (isVisible b)
     (bounded w, bounded h) (pos b)
     (attributes b) (titleChanged b) (loadFinished b)
     (log (CallResize w h) b).

(** [move(x, y)], for [x] and [y] that reached the widget. *)
Definition move (x y : Z) (b : t) : t :=
  mk (windowTitle b) (title b) (isMaximized b) (isVisible b) (size b) (x, y)
     (attributes b) (titleChanged b) (loadFinished b)
     (log (CallMove x y) b).

(** [settings().setAttribute(a, on)] *)
Definition setAttribute (a : WebAttribute) (on : bool) (b : t) : t :=
  mk (windowTitle b) (title b) (isMaximized b) (isVisible b) (size b) (pos b)
     (fun a' => if WebAttribute_eqb a' a then on else attributes b a')
     (titleChanged b) (loadFinished b)
     (log (CallSetAttribute a on) b).

(** [settings().testAttribute(a)] *)
Definition testAttribute (a : WebAttribute) (b : t) : bool :=
  attributes b a.

(** [page().mainFrame().evaluateJavaScript(script)]: what the script does
    to the page is the engine's business; the widget records the call. *)
Definition evaluateJavaScript (script : string) (b : t) : t :=
  mk (windowTitle b) (title b) (isMaximized b) (isVisible b) (size b) (pos b)
     (attributes b) (titleChanged b) (loadFinished b)
     (log (CallEvaluateJavaScript script) b).

Definition connect_titleChanged (s : slot) (b : t) : t :=
  mk (windowTitle b) (title b) (isMaximized b) (isVisible b) (size b) (pos b)
     (attributes b) (titleChanged b ++ [s]) (loadFinished b) (calls b).

Definition connect_loadFinished (s : slot) (b : t) : t :=
  mk (windowTitle b) (title b) (isMaximized b) (isVisible b) (size b) (pos b)
     (attributes b) (titleChanged b) (loadFinished b ++ [s]) (calls b).

(** The engine gives the hosted page a new title (before it notifies). *)
Definition page_title_becomes (s : string) (b : t) : t :=
  mk (windowTitle b) s (isMaximized b) (isVisible b) (size b) (pos b)
     (attributes b) (titleChanged b) (loadFinished b) (calls b).

(** [Browser.__init__] *)
Definition __init__ : t :=
  let self := QWebView_init in
  let self := setWindowTitle "Loading..." self in
  connect_titleChanged slot_adjustTitle self.

(** [Browser.adjustTitle] *)
Definition adjustTitle (self : t) : t :=
  setWindowTitle (title self) self.

(** The scripts evaluated so far, oldest first. *)
Fixpoint evaluated (l : list widget_call) : list string :=
  match l with
  | [] => []
  | CallEvaluateJavaScript s :: rest => s :: evaluated rest
  | _ :: rest => evaluated rest
  end.

End Browser.

(** ** Module constants of [base_gui.py] *)

Definition RIGHT_CLICK_SETTING_KEY : string := "RIGHT_CLICK".
Definition RIGHT_CLICK_ENABLE : string := "document.oncontextmenu = null;".
Definition RIGHT_CLICK_DISABLE : string :=
  "document.oncontextmenu = function(e) { return false; };".
Definition RIGHT_CLICK_INPUTS_ONLY : string :=
  "document.oncontextmenu = function(e) {" ++
  "return e.target.nodeName == 'INPUT' || e.target.nodeName == 'TEXTAREA'};".

Definition TEXT_SELECTION_SETTING_KEY : string := "TEXT_SELECTION".
Definition TEXT_SELECTION_ENABLE : string :=
  "document.onselectstart = null;" ++
  "document.body.style.webkitUserSelect = '';" ++
  "document.body.style.cursor = '';".
Definition TEXT_SELECTION_DISABLE : string :=
  "document.onselectstart = function(e) " ++
  "{ return false; }; document.body.style.webkitUserSelect = 'none';" ++
  "document.body.style.cursor = 'default';".

(** The module [htmlPy.settings] only supplies three integer constants; they
    are taken as given. *)
Record settings_module : Type := mkSettings {
  ENABLE : Z;
  DISABLE : Z;
  INPUTS_ONLY : Z
}.

(** ** The class [BaseGUI] *)

Record BaseGUI : Type := mkBaseGUI {
  app : QApplication;
  window : Browser.t;
  _javascript_settings : Dict.t;
  _width : Z;
  _height : Z;
  _x : Z;
  _y : Z
}.

(** Computations over the instance that may raise. *)
Definition M (A : Type) : Type := BaseGUI -> result A * BaseGUI.

Definition ret {A : Type} (a : A) : M A := fun self => (Return a, self).

Definition raise {A : Type} (e : exn) : M A := fun self => (Raise e, self).

Definition bind {A B : Type} (m : M A) (k : A -> M B) : M B :=
  fun self =>
    match m self with
    | (Return a, self') => k a self'
    | (Raise e, self') => (Raise e, self')
    end.

Declare Scope gui_scope.
Delimit Scope gui_scope with gui.
Notation "x <- c1 ;; c2" := (bind c1 (fun x => c2))
  (at level 100, c1 at next level, right associativity) : gui_scope.
Notation "c1 ;; c2" := (bind c1 (fun _ => c2))
  (at level 100, right associativity) : gui_scope.
Local Open Scope gui_scope.

(** Read an attribute of [self]. *)
Definition ask {A : Type} (f : BaseGUI -> A) : M A :=
  fun self => (Return (f self), self).

(** Call a method of [self.window]; the toolkit's methods used here are all
    [void], so the call evaluates to [None]. *)
Definition on_window (f : Browser.t -> Browser.t) : M pyval :=
  fun self =>
    (Return PyNone,
     mkBaseGUI (app self) (f (window self)) (_javascript_settings self)
               (_width self) (_height self) (_x self) (_y self)).

(** A Python integer fits a C [int]. *)
Definition c_int (z : Z) : bool :=
  ((-2147483648 <=? z) && (z <=? 2147483647))%Z.

(** Call a method of [self.window] that takes two C [int]s, as [resize] and
    [move] do: the bindings convert both arguments before the call, and an
    integer that does not fit raises [OverflowError] with the widget
    untouched. *)
Definition on_window_ints (f : Z -> Z -> Browser.t -> Browser.t) (a b : Z)
  : M pyval :=
  if c_int a && c_int b then on_window (f a b) else raise OverflowError.

(** Mutate [self._javascript_settings] in place. *)
Definition on_javascript_settings (f : Dict.t -> Dict.t) : M unit :=
  fun self =>
    (Return tt,
     mkBaseGUI (app self) (window self) (f (_javascript_settings self))
               (_width self) (_height self) (_x self) (_y self)).

(** Modelled from the spec: [descriptors.LiveProperty], whose class is not in
    these sources.  It is built from an expected type (not enforced), a read
    function and a write function; reading the property calls the read
    function on the instance, assigning to it calls the write function with
    the new value and drops what that returns. *)
Record LiveProperty (T : Type) : Type := mkLiveProperty {
  read_function : M T;
  write_function : T -> M pyval
}.
Arguments mkLiveProperty {T} _ _.
Arguments read_function {T} _.
Arguments write_function {T} _ _.

Definition LiveProperty_get {T : Type} (p : LiveProperty T) : M T :=
  read_function p.

Definition LiveProperty_set {T : Type} (p : LiveProperty T) (value : T)
  : M unit :=
  write_function p value ;; ret tt.

(** [BaseGUI.evaluate_javascript] *)
Definition evaluate_javascript (javascript_string : string) : M unit :=
  on_window (Browser.evaluateJavaScript javascript_string) ;; ret tt.

(** [BaseGUI.__javascript_setting_call] *)
Definition __javascript_setting_call : M unit :=
  d <- ask _javascript_settings ;;
  let javascript_string := join ";" (Dict.values d) in
  if (0 <? String.length javascript_string)%nat
  then evaluate_javascript javascript_string
  else ret tt.

(** The read function of [maximized]: [instance.window.isMaximized()]. *)
Definition maximized_read : M bool :=
  ask (fun self => Browser.isMaximized (window self)).

(** [BaseGUI.auto_resize]; reading [self.maximized] calls the read function
    of the live property. *)
Definition auto_resize : M unit :=
  maximized_ <- maximized_read ;;
  if negb maximized_ then
    (w <- ask _width ;; h <- ask _height ;;
     on_window_ints Browser.resize w h ;;
     x <- ask _x ;; y <- ask _y ;;
     on_window_ints Browser.move x y ;;
     ret tt)
  else ret tt.

(** The write function of [maximized]:
    [showMaximized() if value else showNormal() and auto_resize()].  The
    conditional expression binds weaker than [and]; [and] evaluates its right
    operand only when the left one is true, and is the left one otherwise. *)
Definition maximized_write (value : bool) : M pyval :=
  if value then on_window Browser.showMaximized
  else
    (r <- on_window Browser.showNormal ;;
     if truthy r then (auto_resize ;; ret PyNone) else ret r).

Definition maximized : LiveProperty bool :=
  mkLiveProperty maximized_read maximized_write.

Definition title : LiveProperty string :=
  mkLiveProperty
    (ask (fun self => Browser.windowTitle (window self)))
    (fun value => on_window (Browser.setWindowTitle value)).

Definition plugins : LiveProperty bool :=
  mkLiveProperty
    (ask (fun self => Browser.testAttribute PluginsEnabled (window self)))
    (fun value => on_window (Browser.setAttribute PluginsEnabled value)).

Definition developer_mode : LiveProperty bool :=
  mkLiveProperty
    (ask (fun self =>
            Browser.testAttribute DeveloperExtrasEnabled (window self)))
    (fun value =>
       on_window (Browser.setAttribute DeveloperExtrasEnabled value)).

Section Settings.

Variable settings : settings_module.

(** [BaseGUI.right_click_setting] *)
Definition right_click_setting (value : Z) : M unit :=
  if (value =? ENABLE settings)%Z then
    (evaluate_javascript RIGHT_CLICK_ENABLE ;;
     on_javascript_settings (Dict.pop RIGHT_CLICK_SETTING_KEY))
  else if (value =? DISABLE settings)%Z then
    (evaluate_javascript RIGHT_CLICK_DISABLE ;;
     on_javascript_settings
       (Dict.setitem RIGHT_CLICK_SETTING_KEY RIGHT_CLICK_DISABLE))
  else if (value =? INPUTS_ONLY settings)%Z then
    (evaluate_javascript RIGHT_CLICK_INPUTS_ONLY ;;
     on_javascript_settings
       (Dict.setitem RIGHT_CLICK_SETTING_KEY RIGHT_CLICK_INPUTS_ONLY))
  else
    raise (ValueError ("The argument should be either " ++
                       "htmlPy.settings.ENABLE or " ++
                       "htmlPy.settings.DISABLE or " ++
                       "htmlPy.settings.INPUTS_ONLY")).

(** [BaseGUI.text_selection_setting] *)
Definition text_selection_setting (value : Z) : M unit :=
  if (value =? ENABLE settings)%Z then
    (evaluate_javascript TEXT_SELECTION_ENABLE ;;
     on_javascript_settings (Dict.pop TEXT_SELECTION_SETTING_KEY))
  else if (value =? DISABLE settings)%Z then
    (evaluate_javascript TEXT_SELECTION_DISABLE ;;
     on_javascript_settings
       (Dict.setitem TEXT_SELECTION_SETTING_KEY TEXT_SELECTION_DISABLE))
  else
    raise (ValueError ("The argument should be either " ++
                       "htmlPy.settings.ENABLE or " ++
                       "htmlPy.settings.DISABLE")).

End Settings.

(** Run a connected slot on the instance. *)
Definition run_slot (s : slot) : M unit :=
  match s with
  | slot_adjustTitle => on_window Browser.adjustTitle ;; ret tt
  | slot_javascript_setting_call => __javascript_setting_call
  end.

(** Emit a signal: its connections are called in the order they were made. *)
Fixpoint emit (connections : list slot) : M unit :=
  match connections with
  | [] => ret tt
  | s :: rest => run_slot s ;; emit rest
  end.

(** The page reports that loading has finished. *)
Definition notify_loadFinished : M unit :=
  connections <- ask (fun self => Browser.loadFinished (window self)) ;;
  emit connections.

(** The page's title becomes [t] and the widget reports the change. *)
Definition notify_titleChanged (t : string) : M unit :=
  on_window (Browser.page_title_becomes t) ;;
  connections <- ask (fun self => Browser.titleChanged (window self)) ;;
  emit connections.

(** [BaseGUI.__init__] from [self.window = Browser()] on, once [self.app] is
    known to be [a].  An exception of the final [auto_resize()] leaves the
    constructor. *)
Definition init_window (a : QApplication) (title_ : string)
    (width height x_pos y_pos : Z) (maximized_ plugins_ developer_mode_ : bool)
  : result BaseGUI :=
  let w := Browser.__init__ in
  let w := Browser.setAttribute LocalContentCanAccessRemoteUrls true w in
  let w := Browser.connect_loadFinished slot_javascript_setting_call w in
  let self := mkBaseGUI a w Dict.empty width height x_pos y_pos in
  match (LiveProperty_set title title_ ;;
         LiveProperty_set plugins plugins_ ;;
         LiveProperty_set developer_mode developer_mode_ ;;
         LiveProperty_set maximized maximized_ ;;
         auto_resize) self with
  | (Return _, self') => Return self'
  | (Raise e, _) => Raise e
  end.

(** [BaseGUI.__init__], run in a process [p]. *)
Definition __init__ (title_ : string) (width height x_pos y_pos : Z)
    (maximized_ plugins_ developer_mode_ allow_overwrite : bool)
    (p : process) : result BaseGUI * process :=
  match instance p with
  | Some a =>
      if negb allow_overwrite then
        (Raise (RuntimeError "Another htmlPy application is already running"),
         p)
      else
        (init_window a title_ width height x_pos y_pos
                     maximized_ plugins_ developer_mode_, p)
  | None =>
      let (a, p') := QApplication_new (sys_argv p) p in
      (init_window a title_ width height x_pos y_pos
                   maximized_ plugins_ developer_mode_, p')
  end.

(** The keyword defaults of the constructor. *)
Definition init_default : process -> result BaseGUI * process :=
  __init__ "Application" 800 600 10 10 false false false false.

(** ** Using the wrapper

    What a client or the toolkit can do with a constructed instance through
    the code of [base_gui.py]: call a method, assign to a live property, or
    deliver a notification.  The setters take an [int]; the geometry
    descriptors and the event loop ([start], [stop], [execute]) are outside
    these sources or outside the wrapper's state and are left out. *)
Inductive action : Type :=
| do_right_click_setting (value : Z)
| do_text_selection_setting (value : Z)
| do_evaluate_javascript (javascript_string : string)
| do_auto_resize
| set_maximized (value : bool)
| set_title (value : string)
| set_plugins (value : bool)
| set_developer_mode (value : bool)
| on_loadFinished
| on_titleChanged (t : string).

Definition perform (settings : settings_module) (a : action) : M unit :=
  match a with
  | do_right_click_setting value => right_click_setting settings value
  | do_text_selection_setting value => text_selection_setting settings value
  | do_evaluate_javascript s => evaluate_javascript s
  | do_auto_resize => auto_resize
  | set_maximized value => LiveProperty_set maximized value
  | set_title value => LiveProperty_set title value
  | set_plugins value => LiveProperty_set plugins value
  | set_developer_mode value => LiveProperty_set developer_mode value
  | on_loadFinished => notify_loadFinished
  | on_titleChanged t => notify_titleChanged t
  end.

(** The instance after a sequence of actions; an action that raises leaves
    the instance as the raise left it, and the client goes on. *)
Definition run (settings : settings_module) (l : list action)
    (self : BaseGUI) : BaseGUI :=
  fold_left (fun s a => snd (perform settings a s)) l self.

(** The instances a program can hold: constructed by [__init__], then used. *)
Inductive reachable (settings : settings_module) : BaseGUI -> Prop :=
| reachable_init :
    forall title_ width height x_pos y_pos maximized_ plugins_
           developer_mode_ allow_overwrite p self p',
      __init__ title_ width height x_pos y_pos maximized_ plugins_
           developer_mode_ allow_overwrite p = (Return self, p') ->
      reachable settings self
| reachable_step :
    forall self a,
      reachable settings self ->
      reachable settings (snd (perform settings a self)).

(** A process in which no application exists yet. *)
Definition fresh_process : process := mkProcess None ["app.py"] 0.

(** The settings constants used in the examples. *)
Definition example_settings : settings_module := mkSettings 1 0 2.

Definition example_app : BaseGUI :=
  match fst (init_default fresh_process) with
  | Return self => self
  | Raise _ => mkBaseGUI (mkQApplication 0 []) Browser.QWebView_init
                         Dict.empty 0 0 0 0
  end.

(** An application constructed maximized, with a cached geometry of 800 by
    600 at (10, 10). *)
Definition example_maximized : BaseGUI :=
  match fst (__init__ "Application" 800 600 10 10 true false false false
                      fresh_process) with
  | Return self => self
  | Raise _ => example_app
  end.



(** The example instance with both behaviours overridden. *)
Definition example_overridden : BaseGUI :=
  run example_settings
      [do_right_click_setting 0; do_text_selection_setting 0] example_app.

(** ** The two settings, as the specification speaks of them *)

Inductive setting : Type :=
| right_click
| text_selection.

Definition setting_key (s : setting) : string :=
  match s with
  | right_click => RIGHT_CLICK_SETTING_KEY
  | text_selection => TEXT_SELECTION_SETTING_KEY
  end.

Definition setter (settings : settings_module) (s : setting) : Z -> M unit :=
  match s with
  | right_click => right_click_setting settings
  | text_selection => text_selection_setting settings
  end.

(** The values each setter recognizes, and how its error message names them. *)
Definition recognized (settings : settings_module) (s : setting) : list Z :=
  match s with
  | right_click => [ENABLE settings; DISABLE settings; INPUTS_ONLY settings]
  | text_selection => [ENABLE settings; DISABLE settings]
  end.

Definition recognized_names (s : setting) : list string :=
  match s with
  | right_click =>
      ["htmlPy.settings.ENABLE"; "htmlPy.settings.DISABLE";
       "htmlPy.settings.INPUTS_ONLY"]
  | text_selection => ["htmlPy.settings.ENABLE"; "htmlPy.settings.DISABLE"]
  end.

(** The outcome [r] of a setter call on [self] evaluated [script] at once, as
    the only call to the widget, and left it in the registry under [key],
    the other keys untouched. *)
Definition overridden (key script : string) (self : BaseGUI)
    (r : result unit * BaseGUI) : Prop :=
  fst r = Return tt /\
  Browser.calls (window (snd r)) =
    Browser.calls (window self) ++ [CallEvaluateJavaScript script] /\
  Dict.get key (_javascript_settings (snd r)) = Some script /\
  (forall k, k <> key ->
     Dict.get k (_javascript_settings (snd r)) =
     Dict.get k (_javascript_settings self)) /\
  (NoDup (Dict.keys (_javascript_settings self)) ->
   NoDup (Dict.keys (_javascript_settings (snd r)))).

(** ** The registry invariant and the signal wiring *)

(** An entry the setters can leave in the registry. *)
Definition entry_ok (kv : string * string) : Prop :=
  (fst kv = RIGHT_CLICK_SETTING_KEY /\
   (snd kv = RIGHT_CLICK_DISABLE \/ snd kv = RIGHT_CLICK_INPUTS_ONLY)) \/
  (fst kv = TEXT_SELECTION_SETTING_KEY /\ snd kv = TEXT_SELECTION_DISABLE).

Definition registry_ok (d : Dict.t) : Prop :=
  Forall entry_ok d /\ NoDup (Dict.keys d).

(** Both signals are connected as the constructors connect them. *)
Definition wired (w : Browser.t) : Prop :=
  Browser.titleChanged w = [slot_adjustTitle] /\
  Browser.loadFinished w = [slot_javascript_setting_call].

Definition inv (self : BaseGUI) : Prop :=
  registry_ok (_javascript_settings self) /\ wired (window self).

(** The instance after a setter's two steps: the script evaluated, then the
    registry changed by [f]. *)
Definition applied (script : string) (f : Dict.t -> Dict.t) (self : BaseGUI)
  : BaseGUI :=
  mkBaseGUI (app self) (Browser.evaluateJavaScript script (window self))
            (f (_javascript_settings self))
            (_width self) (_height self) (_x self) (_y self).

(** ** Further vocabulary for the setters and the replay *)


(** The script each setter evaluates for [ENABLE], and for [DISABLE]. *)
Definition enabling_script (s : setting) : string :=
  match s with
  | right_click => RIGHT_CLICK_ENABLE
  | text_selection => TEXT_SELECTION_ENABLE
  end.

Definition disabling_script (s : setting) : string :=
  match s with
  | right_click => RIGHT_CLICK_DISABLE
  | text_selection => TEXT_SELECTION_DISABLE
  end.

(** The script a setter evaluates for a value it recognizes. *)
Definition setting_script (settings : settings_module) (s : setting)
    (value : Z) : string :=
  if (value =? ENABLE settings)%Z then enabling_script s
  else if (value =? DISABLE settings)%Z then disabling_script s
  else RIGHT_CLICK_INPUTS_ONLY.

(** The four integers of a geometry all fit a C [int]. *)
Definition fits_c_int (width height x y : Z) : bool :=
  c_int width && c_int height && c_int x && c_int y.

(** The instance the constructor has built when it reaches its final
    [auto_resize()]. *)
Definition init_before_auto_resize (a : QApplication) (title_ : string)
    (width height x_pos y_pos : Z) (maximized_ plugins_ developer_mode_ : bool)
  : BaseGUI :=
  let w := Browser.__init__ in
  let w := Browser.setAttribute LocalContentCanAccessRemoteUrls true w in
  let w := Browser.connect_loadFinished slot_javascript_setting_call w in
  let w := Browser.setWindowTitle title_ w in
  let w := Browser.setAttribute PluginsEnabled plugins_ w in
  let w := Browser.setAttribute DeveloperExtrasEnabled developer_mode_ w in
  let w := (if maximized_ then Browser.showMaximized
            else Browser.showNormal) w in
  mkBaseGUI a w Dict.empty width height x_pos y_pos.

(** The widget calls a reload adds for the registry [d]. *)
Definition replay_batch (d : Dict.t) : list widget_call :=
  match d with
  | [] => []
  | _ :: _ => [CallEvaluateJavaScript (join ";" (Dict.values d))]
  end.

(** ** The test helper of [tests/base_gui_javascript.py] *)

(** [html_with_string]: the template's only field is filled with [s]. *)
Definition html_with_string (s : string) : string :=
  "<html><head></head><body>" ++ s ++ "</body></html>".

(** * Proofs *)

(** ** Facts about the dict *)

Module DictFacts.

Lemma get_pop_same (k : string) (d : Dict.t) :
  Dict.get k (Dict.pop k d) = None.
Proof.
  induction d as [|[k' v'] rest IH]; simpl; auto.
  destruct (k =? k') eqn:E; simpl; auto.
  now rewrite E.
Qed.

Lemma get_pop_other (k k' : string) (d : Dict.t) :
  k' <> k -> Dict.get k' (Dict.pop k d) = Dict.get k' d.
Proof.
  intros Hne. induction d as [|[k0 v0] rest IH]; simpl; auto.
  destruct (k =? k0) eqn:E; simpl.
  - apply String.eqb_eq in E. subst k0.
    apply String.eqb_neq in Hne. now rewrite Hne.
  - now rewrite IH.
Qed.

Lemma get_setitem_same (k v : string) (d : Dict.t) :
  Dict.get k (Dict.setitem k v d) = Some v.
Proof.
  induction d as [|[k' v'] rest IH]; simpl.
  - now rewrite String.eqb_refl.
  - destruct (k =? k') eqn:E; simpl; now rewrite E.
Qed.

Lemma get_setitem_other (k k' v : string) (d : Dict.t) :
  k' <> k -> Dict.get k' (Dict.setitem k v d) = Dict.get k' d.
Proof.
  intros Hne. induction d as [|[k0 v0] rest IH]; simpl.
  - apply String.eqb_neq in Hne. now rewrite Hne.
  - destruct (k =? k0) eqn:E; simpl.
    + apply String.eqb_eq in E. subst k0.
      apply String.eqb_neq in Hne. now rewrite Hne.
    + now rewrite IH.
Qed.

Lemma get_None_keys (k : string) (d : Dict.t) :
  Dict.get k d = None <-> ~ In k (Dict.keys d).
Proof.
  induction d as [|[k' v'] rest IH]; simpl.
  - tauto.
  - destruct (String.eqb_spec k k') as [->|Hne]; split.
    + discriminate.
    + intros H. exfalso. apply H. now left.
    + intros H [Heq|Hin]; [congruence | now apply IH].
    + intros H. apply IH. tauto.
Qed.

Lemma pop_absent (k : string) (d : Dict.t) :
  ~ In k (Dict.keys d) -> Dict.pop k d = d.
Proof.
  induction d as [|[k' v'] rest IH]; simpl; auto.
  intros H. destruct (String.eqb_spec k k') as [->|Hne].
  - exfalso. apply H. now left.
  - f_equal. apply IH. tauto.
Qed.

Lemma pop_pop (k : string) (d : Dict.t) :
  Dict.pop k (Dict.pop k d) = Dict.pop k d.
Proof.
  apply pop_absent, get_None_keys, get_pop_same.
Qed.

Lemma keys_pop_incl (k : string) (d : Dict.t) :
  incl (Dict.keys (Dict.pop k d)) (Dict.keys d).
Proof.
  induction d as [|[k' v'] rest IH]; simpl.
  - apply incl_refl.
  - destruct (k =? k'); simpl.
    + now apply incl_tl.
    + apply incl_cons; [now left | now apply incl_tl].
Qed.

Lemma Forall_pop (P : string * string -> Prop) (k : string) (d : Dict.t) :
  Forall P d -> Forall P (Dict.pop k d).
Proof.
  induction 1 as [|[k' v'] rest Hx Hrest IH]; simpl; auto.
  destruct (k =? k'); auto.
Qed.

Lemma Forall_setitem (P : string * string -> Prop) (k v : string)
    (d : Dict.t) :
  P (k, v) -> Forall P d -> Forall P (Dict.setitem k v d).
Proof.
  intros Hkv. induction 1 as [|[k' v'] rest Hx Hrest IH]; simpl; auto.
  destruct (String.eqb_spec k k') as [->|Hne]; auto.
Qed.

Lemma NoDup_pop (k : string) (d : Dict.t) :
  NoDup (Dict.keys d) -> NoDup (Dict.keys (Dict.pop k d)).
Proof.
  induction d as [|[k' v'] rest IH]; simpl; auto.
  intros H. inversion H as [|? ? Hnotin Hnd]; subst.
  destruct (k =? k'); simpl; auto.
  constructor; auto.
  intros Hin. apply Hnotin. now apply (keys_pop_incl k rest).
Qed.

Lemma keys_setitem_present (k v : string) (d : Dict.t) :
  In k (Dict.keys d) -> Dict.keys (Dict.setitem k v d) = Dict.keys d.
Proof.
  induction d as [|[k' v'] rest IH]; simpl; [tauto|].
  intros H. destruct (String.eqb_spec k k') as [->|Hne]; simpl; auto.
  f_equal. apply IH. destruct H; congruence.
Qed.

Lemma keys_setitem_absent (k v : string) (d : Dict.t) :
  ~ In k (Dict.keys d) -> Dict.keys (Dict.setitem k v d) = Dict.keys d ++ [k].
Proof.
  induction d as [|[k' v'] rest IH]; simpl; auto.
  intros H. destruct (String.eqb_spec k k') as [->|Hne]; simpl.
  - exfalso. apply H. now left.
  - f_equal. apply IH. tauto.
Qed.

Lemma NoDup_setitem (k v : string) (d : Dict.t) :
  NoDup (Dict.keys d) -> NoDup (Dict.keys (Dict.setitem k v d)).
Proof.
  intros Hnd. destruct (in_dec string_dec k (Dict.keys d)) as [Hin|Hout].
  - now rewrite keys_setitem_present.
  - rewrite keys_setitem_absent by assumption.
    apply NoDup_rev in Hnd. rewrite <- (rev_involutive (_ ++ _)).
    apply NoDup_rev. rewrite rev_app_distr. simpl.
    constructor; auto. now rewrite <- in_rev.
Qed.

End DictFacts.

(** ** The registry invariant is kept *)

Lemma registry_ok_empty : registry_ok Dict.empty.
Proof. split; constructor. Qed.

Lemma registry_ok_pop (k : string) (d : Dict.t) :
  registry_ok d -> registry_ok (Dict.pop k d).
Proof.
  intros [Hall Hnd]. split.
  - now apply DictFacts.Forall_pop.
  - now apply DictFacts.NoDup_pop.
Qed.

Lemma registry_ok_setitem (k v : string) (d : Dict.t) :
  entry_ok (k, v) -> registry_ok d -> registry_ok (Dict.setitem k v d).
Proof.
  intros Hkv [Hall Hnd]. split.
  - now apply DictFacts.Forall_setitem.
  - now apply DictFacts.NoDup_setitem.
Qed.

Lemma entry_ok_right_click_disable :
  entry_ok (RIGHT_CLICK_SETTING_KEY, RIGHT_CLICK_DISABLE).
Proof. left. simpl. auto. Qed.

Lemma entry_ok_right_click_inputs_only :
  entry_ok (RIGHT_CLICK_SETTING_KEY, RIGHT_CLICK_INPUTS_ONLY).
Proof. left. simpl. auto. Qed.

Lemma entry_ok_text_selection_disable :
  entry_ok (TEXT_SELECTION_SETTING_KEY, TEXT_SELECTION_DISABLE).
Proof. right. simpl. auto. Qed.

(** Every script a good registry holds is a non-empty string, and none is an
    enabling script. *)
Lemma entry_ok_script (kv : string * string) :
  entry_ok kv ->
  (0 < String.length (snd kv))%nat /\
  snd kv <> RIGHT_CLICK_ENABLE /\ snd kv <> TEXT_SELECTION_ENABLE.
Proof.
  intros [[_ [H|H]]|[_ H]]; rewrite H; repeat split;
    solve [ vm_compute; lia
          | apply String.eqb_neq; vm_compute; reflexivity ].
Qed.

(** ** The effect of each method *)

Ltac run_gui :=
  unfold LiveProperty_set, LiveProperty_get, evaluate_javascript,
    bind, ret, raise, ask, on_window, on_javascript_settings;
  cbn [fst snd read_function write_function
       app window _javascript_settings _width _height _x _y].

Lemma evaluate_javascript_run (s : string) (self : BaseGUI) :
  evaluate_javascript s self =
  (Return tt,
   mkBaseGUI (app self) (Browser.evaluateJavaScript s (window self))
             (_javascript_settings self)
             (_width self) (_height self) (_x self) (_y self)).
Proof. reflexivity. Qed.

(** The callback on any registry: one evaluation of the joined string when
    that string is not empty, nothing otherwise. *)
Lemma javascript_setting_call_run (self : BaseGUI) :
  __javascript_setting_call self =
  let javascript_string := join ";" (Dict.values (_javascript_settings self)) in
  if (0 <? String.length javascript_string)%nat
  then evaluate_javascript javascript_string self
  else (Return tt, self).
Proof.
  unfold __javascript_setting_call. run_gui.
  destruct (0 <? _)%nat; reflexivity.
Qed.

Lemma join_nonempty (sep s : string) (rest : list string) :
  (0 < String.length s)%nat ->
  (0 < String.length (join sep (s :: rest)))%nat.
Proof.
  intros Hs. destruct rest as [|s' rest']; [exact Hs|].
  cbn [join]. destruct s as [|c s0]; [inversion Hs|].
  cbn [String.append String.length]. lia.
Qed.

Lemma registry_ok_join (d : Dict.t) :
  registry_ok d -> d <> [] ->
  (0 <? String.length (join ";" (Dict.values d)))%nat = true.
Proof.
  intros [Hall _] Hne. destruct d as [|kv rest]; [congruence|].
  apply Nat.ltb_lt. unfold Dict.values. cbn [map].
  apply join_nonempty. inversion Hall; subst.
  now apply entry_ok_script.
Qed.

Lemma auto_resize_run (self : BaseGUI) :
  auto_resize self =
  if Browser.isMaximized (window self) then (Return tt, self)
  else if c_int (_width self) && c_int (_height self) then
    if c_int (_x self) && c_int (_y self) then
      (Return tt,
       mkBaseGUI (app self)
         (Browser.move (_x self) (_y self)
            (Browser.resize (_width self) (_height self) (window self)))
         (_javascript_settings self)
         (_width self) (_height self) (_x self) (_y self))
    else
      (Raise OverflowError,
       mkBaseGUI (app self)
         (Browser.resize (_width self) (_height self) (window self))
         (_javascript_settings self)
         (_width self) (_height self) (_x self) (_y self))
  else (Raise OverflowError, self).
Proof.
  unfold auto_resize, maximized_read, on_window_ints. run_gui.
  destruct (Browser.isMaximized (window self)); [reflexivity|].
  cbn [negb].
  destruct (c_int (_width self) && c_int (_height self)); [|reflexivity].
  cbn [fst snd window _x _y].
  destruct (c_int (_x self) && c_int (_y self)); reflexivity.
Qed.

Lemma maximized_write_run (value : bool) (self : BaseGUI) :
  maximized_write value self =
  (Return PyNone,
   mkBaseGUI (app self)
     ((if value then Browser.showMaximized else Browser.showNormal)
        (window self))
     (_javascript_settings self)
     (_width self) (_height self) (_x self) (_y self)).
Proof. destruct value; reflexivity. Qed.

Section SetterFacts.

Variable settings : settings_module.

Lemma right_click_setting_run (value : Z) (self : BaseGUI) :
  right_click_setting settings value self =
  if (value =? ENABLE settings)%Z then
    (Return tt,
     applied RIGHT_CLICK_ENABLE (Dict.pop RIGHT_CLICK_SETTING_KEY) self)
  else if (value =? DISABLE settings)%Z then
    (Return tt,
     applied RIGHT_CLICK_DISABLE
       (Dict.setitem RIGHT_CLICK_SETTING_KEY RIGHT_CLICK_DISABLE) self)
  else if (value =? INPUTS_ONLY settings)%Z then
    (Return tt,
     applied RIGHT_CLICK_INPUTS_ONLY
       (Dict.setitem RIGHT_CLICK_SETTING_KEY RIGHT_CLICK_INPUTS_ONLY) self)
  else
    (Raise (ValueError
       "The argument should be either htmlPy.settings.ENABLE or htmlPy.settings.DISABLE or htmlPy.settings.INPUTS_ONLY"),
     self).
Proof.
  unfold right_click_setting.
  destruct (value =? ENABLE settings)%Z; [reflexivity|].
  destruct (value =? DISABLE settings)%Z; [reflexivity|].
  destruct (value =? INPUTS_ONLY settings)%Z; reflexivity.
Qed.

Lemma text_selection_setting_run (value : Z) (self : BaseGUI) :
  text_selection_setting settings value self =
  if (value =? ENABLE settings)%Z then
    (Return tt,
     applied TEXT_SELECTION_ENABLE (Dict.pop TEXT_SELECTION_SETTING_KEY) self)
  else if (value =? DISABLE settings)%Z then
    (Return tt,
     applied TEXT_SELECTION_DISABLE
       (Dict.setitem TEXT_SELECTION_SETTING_KEY TEXT_SELECTION_DISABLE) self)
  else
    (Raise (ValueError
       "The argument should be either htmlPy.settings.ENABLE or htmlPy.settings.DISABLE"),
     self).
Proof.
  unfold text_selection_setting.
  destruct (value =? ENABLE settings)%Z; [reflexivity|].
  destruct (value =? DISABLE settings)%Z; reflexivity.
Qed.

End SetterFacts.

Lemma notify_loadFinished_run (self : BaseGUI) :
  wired (window self) ->
  notify_loadFinished self = __javascript_setting_call self.
Proof.
  intros [_ Hl]. unfold notify_loadFinished, bind, ask. rewrite Hl.
  cbn [emit run_slot]. unfold bind, ret.
  destruct (__javascript_setting_call self) as [[[]|e] self']; reflexivity.
Qed.

Lemma notify_titleChanged_run (t : string) (self : BaseGUI) :
  wired (window self) ->
  notify_titleChanged t self =
  (Return tt,
   mkBaseGUI (app self)
     (Browser.adjustTitle (Browser.page_title_becomes t (window self)))
     (_javascript_settings self)
     (_width self) (_height self) (_x self) (_y self)).
Proof.
  intros [Ht _]. unfold notify_titleChanged. run_gui.
  cbn [Browser.titleChanged Browser.page_title_becomes]. rewrite Ht.
  reflexivity.
Qed.

(** Changing the window without touching its connections keeps the
    invariant, and so does a good change of the registry. *)
Lemma inv_change (self : BaseGUI) (w : Browser.t) (d : Dict.t) :
  inv self ->
  Browser.titleChanged w = Browser.titleChanged (window self) ->
  Browser.loadFinished w = Browser.loadFinished (window self) ->
  registry_ok d ->
  inv (mkBaseGUI (app self) w d (_width self) (_height self)
                 (_x self) (_y self)).
Proof.
  intros [_ [Ht Hl]] Ht' Hl' Hd. split; [exact Hd|].
  split; cbn [window]; congruence.
Qed.

Lemma inv_applied (script : string) (f : Dict.t -> Dict.t) (self : BaseGUI) :
  inv self ->
  (registry_ok (_javascript_settings self) ->
   registry_ok (f (_javascript_settings self))) ->
  inv (applied script f self).
Proof.
  intros Hinv Hf. apply inv_change; auto. apply Hf, Hinv.
Qed.

Lemma javascript_setting_call_inv (self : BaseGUI) :
  inv self -> inv (snd (__javascript_setting_call self)).
Proof.
  intros Hinv. rewrite javascript_setting_call_run. cbv zeta.
  destruct (0 <? _)%nat; [|exact Hinv].
  rewrite evaluate_javascript_run. cbn [snd].
  apply inv_change; auto. apply Hinv.
Qed.

Lemma perform_inv (settings : settings_module) (a : action) (self : BaseGUI) :
  inv self -> inv (snd (perform settings a self)).
Proof.
  intros Hinv. destruct a as [v|v|s| |b|s|b|b| |t]; cbn [perform].
  - rewrite right_click_setting_run.
    destruct (v =? ENABLE settings)%Z;
      [|destruct (v =? DISABLE settings)%Z;
        [|destruct (v =? INPUTS_ONLY settings)%Z]];
      cbn [snd]; auto; apply inv_applied; auto; intros Hd.
    + now apply registry_ok_pop.
    + apply registry_ok_setitem; auto using entry_ok_right_click_disable.
    + apply registry_ok_setitem; auto using entry_ok_right_click_inputs_only.
  - rewrite text_selection_setting_run.
    destruct (v =? ENABLE settings)%Z;
      [|destruct (v =? DISABLE settings)%Z];
      cbn [snd]; auto; apply inv_applied; auto; intros Hd.
    + now apply registry_ok_pop.
    + apply registry_ok_setitem; auto using entry_ok_text_selection_disable.
  - (* the window changes, its connections and the registry do not *)
    exact Hinv.
  - rewrite auto_resize_run.
    destruct (Browser.isMaximized (window self)); [exact Hinv|].
    destruct (c_int (_width self) && c_int (_height self)); [|exact Hinv].
    destruct (c_int (_x self) && c_int (_y self)); exact Hinv.
  - unfold LiveProperty_set, bind. cbn [maximized write_function].
    rewrite maximized_write_run. destruct b; exact Hinv.
  - exact Hinv.
  - exact Hinv.
  - exact Hinv.
  - rewrite notify_loadFinished_run by apply Hinv.
    now apply javascript_setting_call_inv.
  - rewrite notify_titleChanged_run by apply Hinv. exact Hinv.
Qed.

(** The constructor up to its final [auto_resize()], which decides whether
    it returns. *)
Lemma init_window_spec (a : QApplication) (title_ : string)
    (width height x_pos y_pos : Z) (maximized_ plugins_ developer_mode_ : bool) :
  init_window a title_ width height x_pos y_pos
              maximized_ plugins_ developer_mode_ =
  match auto_resize (init_before_auto_resize a title_ width height x_pos y_pos
                       maximized_ plugins_ developer_mode_) with
  | (Return _, self) => Return self
  | (Raise e, _) => Raise e
  end.
Proof. destruct maximized_; reflexivity. Qed.

(** What the constructor builds once the application object is settled: it
    returns when the window is to be maximized or the geometry fits C
    [int]s, and raises [OverflowError] otherwise. *)
Lemma init_window_run (a : QApplication) (title_ : string)
    (width height x_pos y_pos : Z) (maximized_ plugins_ developer_mode_ : bool) :
  (maximized_ || fits_c_int width height x_pos y_pos = true /\
   exists self,
     init_window a title_ width height x_pos y_pos
                 maximized_ plugins_ developer_mode_ = Return self /\
     app self = a /\
     _javascript_settings self = Dict.empty /\
     (_width self, _height self, _x self, _y self) =
       (width, height, x_pos, y_pos) /\
     wired (window self) /\
     Browser.windowTitle (window self) = title_ /\
     Browser.calls (window self) =
       [CallSetWindowTitle "Loading...";
        CallSetAttribute LocalContentCanAccessRemoteUrls true;
        CallSetWindowTitle title_;
        CallSetAttribute PluginsEnabled plugins_;
        CallSetAttribute DeveloperExtrasEnabled developer_mode_] ++
       (if maximized_ then [CallShowMaximized]
        else [CallShowNormal; CallResize width height;
              CallMove x_pos y_pos]) /\
     Browser.testAttribute LocalContentCanAccessRemoteUrls (window self) =
       true /\
     (Browser.testAttribute PluginsEnabled (window self),
      Browser.testAttribute DeveloperExtrasEnabled (window self),
      Browser.isMaximized (window self)) =
       (plugins_, developer_mode_, maximized_) /\
     (Browser.size (window self), Browser.pos (window self)) =
       if maximized_
       then (Browser.size Browser.QWebView_init,
             Browser.pos Browser.QWebView_init)
       else ((Browser.bounded width, Browser.bounded height),
             (x_pos, y_pos))) \/
  (maximized_ || fits_c_int width height x_pos y_pos = false /\
   init_window a title_ width height x_pos y_pos
               maximized_ plugins_ developer_mode_ = Raise OverflowError).
Proof.
  rewrite init_window_spec, auto_resize_run.
  destruct maximized_.
  - left. split; [reflexivity|]. eexists. split; [reflexivity|].
    repeat split.
  - cbn [orb init_before_auto_resize Browser.isMaximized Browser.showNormal
         window _width _height _x _y].
    unfold fits_c_int.
    destruct (c_int width && c_int height); cbn [andb].
    + destruct (c_int x_pos && c_int y_pos).
      * left. split; [reflexivity|]. eexists. split; [reflexivity|].
        repeat split.
      * right. split; reflexivity.
    + right. split; reflexivity.
Qed.

Lemma init_cases title_ width height x_pos y_pos maximized_ plugins_
      developer_mode_ allow_overwrite p :
  __init__ title_ width height x_pos y_pos maximized_ plugins_
       developer_mode_ allow_overwrite p =
  match instance p with
  | Some a =>
      if allow_overwrite then
        (init_window a title_ width height x_pos y_pos
                     maximized_ plugins_ developer_mode_, p)
      else
        (Raise (RuntimeError "Another htmlPy application is already running"),
         p)
  | None =>
      (init_window (mkQApplication (constructed p) (sys_argv p))
                   title_ width height x_pos y_pos
                   maximized_ plugins_ developer_mode_,
       mkProcess (Some (mkQApplication (constructed p) (sys_argv p)))
                 (sys_argv p) (S (constructed p)))
  end.
Proof.
  unfold __init__. destruct (instance p) as [a|]; [|reflexivity].
  destruct allow_overwrite; reflexivity.
Qed.

(** A constructor that returned went through [init_window]. *)
Lemma init_returns title_ width height x_pos y_pos maximized_ plugins_
      developer_mode_ allow_overwrite p self p' :
  __init__ title_ width height x_pos y_pos maximized_ plugins_
       developer_mode_ allow_overwrite p = (Return self, p') ->
  exists a,
    init_window a title_ width height x_pos y_pos
                maximized_ plugins_ developer_mode_ = Return self.
Proof.
  rewrite init_cases. destruct (instance p) as [a|].
  - destruct allow_overwrite; intros H; inversion H. now exists a.
  - intros H. inversion H. eauto.
Qed.

Lemma init_inv title_ width height x_pos y_pos maximized_ plugins_
      developer_mode_ allow_overwrite p self p' :
  __init__ title_ width height x_pos y_pos maximized_ plugins_
       developer_mode_ allow_overwrite p = (Return self, p') ->
  inv self.
Proof.
  intros H. apply init_returns in H. destruct H as [a Ha].
  destruct (init_window_run a title_ width height x_pos y_pos
              maximized_ plugins_ developer_mode_)
    as [(_ & s & Hs & _ & Hd & _ & Hw & _)|(_ & Hraise)];
    [|congruence].
  assert (self = s) as -> by congruence.
  split; [|exact Hw]. rewrite Hd. apply registry_ok_empty.
Qed.

Lemma reachable_inv (settings : settings_module) (self : BaseGUI) :
  reachable settings self -> inv self.
Proof.
  induction 1 as [? ? ? ? ? ? ? ? ? ? ? ? Hinit|self a _ IH].
  - eapply init_inv, Hinit.
  - now apply perform_inv.
Qed.

Lemma reachable_run (settings : settings_module) (l : list action)
    (self : BaseGUI) :
  reachable settings self -> reachable settings (run settings l self).
Proof.
  revert self. induction l as [|a l IH]; intros self H; [exact H|].
  apply (IH (snd (perform settings a self))). now apply reachable_step.
Qed.

Lemma example_app_reachable : reachable example_settings example_app.
Proof.
  apply (reachable_init example_settings
           "Application" 800 600 10 10 false false false false
           fresh_process example_app (snd (init_default fresh_process))).
  reflexivity.
Qed.

Lemma example_overridden_reachable :
  reachable example_settings example_overridden.
Proof. apply reachable_run, example_app_reachable. Qed.

Lemma applied_setitem_overridden (key script : string) (self : BaseGUI) :
  overridden key script self
    (Return tt, applied script (Dict.setitem key script) self).
Proof.
  repeat split; cbn [fst snd applied _javascript_settings].
  - apply DictFacts.get_setitem_same.
  - intros k Hk. now apply DictFacts.get_setitem_other.
  - apply DictFacts.NoDup_setitem.
Qed.

(** ** The code on small inputs *)

Example join_none : join ";" [] = "".
Proof. reflexivity. Qed.

Example join_two : join ";" ["a;"; "b"] = "a;;b".
Proof. reflexivity. Qed.

Example contains_yes : contains "htmlPy.settings.ENABLE or" "ENABLE" = true.
Proof. reflexivity. Qed.

Example contains_no : contains "htmlPy.settings.ENABLE or" "DISABLE" = false.
Proof. reflexivity. Qed.

Example RIGHT_CLICK_INPUTS_ONLY_text :
  RIGHT_CLICK_INPUTS_ONLY =
  "document.oncontextmenu = function(e) {return e.target.nodeName == 'INPUT' || e.target.nodeName == 'TEXTAREA'};".
Proof. reflexivity. Qed.

Example TEXT_SELECTION_ENABLE_text :
  TEXT_SELECTION_ENABLE =
  "document.onselectstart = null;document.body.style.webkitUserSelect = '';document.body.style.cursor = '';".
Proof. reflexivity. Qed.

Example TEXT_SELECTION_DISABLE_text :
  TEXT_SELECTION_DISABLE =
  "document.onselectstart = function(e) { return false; }; document.body.style.webkitUserSelect = 'none';document.body.style.cursor = 'default';".
Proof. reflexivity. Qed.

(** The constructor with its defaults, in a process without an application. *)
Example example_app_calls :
  Browser.calls (window example_app) =
  [CallSetWindowTitle "Loading...";
   CallSetAttribute LocalContentCanAccessRemoteUrls true;
   CallSetWindowTitle "Application";
   CallSetAttribute PluginsEnabled false;
   CallSetAttribute DeveloperExtrasEnabled false;
   CallShowNormal; CallResize 800 600; CallMove 10 10].
Proof. reflexivity. Qed.

(** Right-click disabled, text selection left enabled: a reload replays the
    one stored script and nothing else. *)
Example replay_right_click_only :
  Browser.evaluated
    (Browser.calls
       (window (run example_settings
                    [do_right_click_setting 0; do_text_selection_setting 1;
                     on_loadFinished] example_app))) =
  [RIGHT_CLICK_DISABLE; TEXT_SELECTION_ENABLE; RIGHT_CLICK_DISABLE].
Proof. reflexivity. Qed.

(** A reload right after construction evaluates nothing. *)
Example replay_empty_registry :
  run example_settings [on_loadFinished] example_app = example_app.
Proof. reflexivity. Qed.

(** Restoring [example_maximized] with [maximized = False]: the widget gets
    [showNormal()] and keeps the toolkit's geometry; only an explicit
    [auto_resize()] applies the cache. *)
Example restore_keeps_toolkit_geometry :
  let restored := run example_settings [set_maximized false] example_maximized in
  Browser.calls (window restored) =
    Browser.calls (window example_maximized) ++ [CallShowNormal] /\
  Browser.isMaximized (window restored) = false /\
  (Browser.size (window restored), Browser.pos (window restored)) =
    ((640, 480), (0, 0))%Z /\
  (_width restored, _height restored, _x restored, _y restored) =
    (800, 600, 10, 10)%Z /\
  Browser.calls (window (run example_settings [do_auto_resize] restored)) =
    Browser.calls (window restored) ++ [CallResize 800 600; CallMove 10 10].
Proof. repeat split. Qed.

(** A negative width reaches the widget, which bounds it; the cache keeps
    the integer as given. *)
Example negative_width_is_bounded :
  match fst (__init__ "Application" (-5) 600 10 10 false false false false
                      fresh_process) with
  | Return self =>
      Browser.size (window self) = (0, 600)%Z /\ _width self = (-5)%Z
  | Raise _ => False
  end.
Proof. split; reflexivity. Qed.

(** A width one past the largest C [int] stops the constructor at its final
    [auto_resize()], after the application was constructed. *)
Example wide_constructor_raises :
  __init__ "Application" 2147483648 600 10 10 false false false false
           fresh_process =
  (Raise OverflowError,
   mkProcess (Some (mkQApplication 0 ["app.py"])) ["app.py"] 1).
Proof. reflexivity. Qed.

(** ** The properties of the specification *)

(** C1: whenever the page reports that loading has finished, the replay
    callback joins the scripts stored in the registry with [";"] and
    evaluates the joined string in one [evaluate_javascript] call; with an
    empty registry it makes no call at all.  The registry itself is left as
    it is.  The instances are those a program can hold: built by the
    constructor and used through the methods. *)
Theorem loadFinished_replays_registry
    (settings : settings_module) (self : BaseGUI) :
  reachable settings self ->
  fst (notify_loadFinished self) = Return tt /\
  _javascript_settings (snd (notify_loadFinished self)) =
    _javascript_settings self /\
  Browser.calls (window (snd (notify_loadFinished self))) =
    Browser.calls (window self) ++
    match _javascript_settings self with
    | [] => []
    | _ :: _ =>
        [CallEvaluateJavaScript
           (join ";" (Dict.values (_javascript_settings self)))]
    end.
Proof.
  intros Hreach. apply reachable_inv in Hreach. destruct Hreach as [Hd Hw].
  rewrite notify_loadFinished_run by exact Hw.
  rewrite javascript_setting_call_run. cbv zeta.
  destruct (_javascript_settings self) as [|kv rest] eqn:E.
  - cbn. now rewrite app_nil_r.
  - rewrite registry_ok_join by (auto; discriminate).
    rewrite evaluate_javascript_run. cbn [fst snd _javascript_settings window].
    now rewrite E.
Qed.

Lemma loadFinished_replays_registry_witness :
  reachable example_settings example_overridden /\
  Browser.evaluated
    (Browser.calls (window (snd (notify_loadFinished example_overridden)))) =
  Browser.evaluated (Browser.calls (window example_overridden)) ++
  ["document.oncontextmenu = function(e) { return false; };;document.onselectstart = function(e) { return false; }; document.body.style.webkitUserSelect = 'none';document.body.style.cursor = 'default';"].
Proof.
  split; [exact example_overridden_reachable|].
  destruct (loadFinished_replays_registry
              example_settings example_overridden
              example_overridden_reachable) as (_ & _ & Hcalls).
  rewrite Hcalls. reflexivity.
Defined.

(** C2: a value outside the recognized ones, passed to either setter, raises
    [ValueError] with a message that names the allowed values; the instance
    is exactly as before the call, so the registry is unchanged and no
    script was evaluated. *)
Theorem unrecognized_value_raises
    (settings : settings_module) (s : setting) (value : Z) (self : BaseGUI) :
  ~ In value (recognized settings s) ->
  exists msg,
    setter settings s value self = (Raise (ValueError msg), self) /\
    Forall (fun name => contains msg name = true) (recognized_names s).
Proof.
  intros Hout. destruct s; cbn [setter recognized recognized_names] in *.
  - rewrite right_click_setting_run.
    destruct (Z.eqb_spec value (ENABLE settings)) as [->|_];
      [exfalso; apply Hout; now left|].
    destruct (Z.eqb_spec value (DISABLE settings)) as [->|_];
      [exfalso; apply Hout; right; now left|].
    destruct (Z.eqb_spec value (INPUTS_ONLY settings)) as [->|_];
      [exfalso; apply Hout; right; right; now left|].
    eexists. split; [reflexivity|].
    repeat constructor.
  - rewrite text_selection_setting_run.
    destruct (Z.eqb_spec value (ENABLE settings)) as [->|_];
      [exfalso; apply Hout; now left|].
    destruct (Z.eqb_spec value (DISABLE settings)) as [->|_];
      [exfalso; apply Hout; right; now left|].
    eexists. split; [reflexivity|].
    repeat constructor.
Qed.

Lemma unrecognized_value_raises_witness :
  ~ In 7%Z (recognized example_settings right_click) /\
  exists msg,
    right_click_setting example_settings 7 example_overridden =
      (Raise (ValueError msg), example_overridden) /\
    Forall (fun name => contains msg name = true)
           (recognized_names right_click).
Proof.
  assert (Hout : ~ In 7%Z (recognized example_settings right_click)).
  { cbn. intros [H|[H|[H|[]]]]; discriminate H. }
  split; [exact Hout|].
  exact (unrecognized_value_raises
           example_settings right_click 7 example_overridden Hout).
Defined.

(** C3: with the three constants distinct, calling a setter with a
    non-default value evaluates the script of that value at once and stores
    the same script in the registry under the setting's key, in place of
    whatever was there. *)
Theorem override_evaluates_and_stores
    (settings : settings_module) (self : BaseGUI) :
  DISABLE settings <> ENABLE settings ->
  INPUTS_ONLY settings <> ENABLE settings ->
  INPUTS_ONLY settings <> DISABLE settings ->
  overridden RIGHT_CLICK_SETTING_KEY RIGHT_CLICK_DISABLE self
    (right_click_setting settings (DISABLE settings) self) /\
  overridden RIGHT_CLICK_SETTING_KEY RIGHT_CLICK_INPUTS_ONLY self
    (right_click_setting settings (INPUTS_ONLY settings) self) /\
  overridden TEXT_SELECTION_SETTING_KEY TEXT_SELECTION_DISABLE self
    (text_selection_setting settings (DISABLE settings) self).
Proof.
  intros Hde Hie Hid.
  apply Z.eqb_neq in Hde, Hie, Hid.
  rewrite !right_click_setting_run, text_selection_setting_run.
  rewrite Hde, Hie, Hid, !Z.eqb_refl.
  repeat split; apply applied_setitem_overridden.
Qed.

Lemma override_evaluates_and_stores_witness :
  (DISABLE example_settings <> ENABLE example_settings /\
   INPUTS_ONLY example_settings <> ENABLE example_settings /\
   INPUTS_ONLY example_settings <> DISABLE example_settings) /\
  Dict.get RIGHT_CLICK_SETTING_KEY
    (_javascript_settings
       (snd (right_click_setting example_settings 2 example_overridden))) =
  Some "document.oncontextmenu = function(e) {return e.target.nodeName == 'INPUT' || e.target.nodeName == 'TEXTAREA'};".
Proof.
  assert (Hde : DISABLE example_settings <> ENABLE example_settings)
    by discriminate.
  assert (Hie : INPUTS_ONLY example_settings <> ENABLE example_settings)
    by discriminate.
  assert (Hid : INPUTS_ONLY example_settings <> DISABLE example_settings)
    by discriminate.
  split; [auto|].
  destruct (override_evaluates_and_stores
              example_settings example_overridden Hde Hie Hid)
    as (_ & (_ & _ & Hget & _) & _).
  exact Hget.
Defined.

(** C4 fails on the code.  Assigning [False] to [maximized] calls
    [showNormal()] and nothing else: that call is [None], so the [and] of the
    write function never reaches [auto_resize()], and the cached geometry is
    not reapplied. *)
Theorem maximized_false_skips_auto_resize (self : BaseGUI) :
  fst (LiveProperty_set maximized false self) = Return tt /\
  Browser.calls (window (snd (LiveProperty_set maximized false self))) =
    Browser.calls (window self) ++ [CallShowNormal] /\
  Browser.size (window (snd (LiveProperty_set maximized false self))) =
    Browser.size (window self) /\
  Browser.pos (window (snd (LiveProperty_set maximized false self))) =
    Browser.pos (window self).
Proof. repeat split. Qed.

(** C5: enabling is idempotent on the registry.  A first call with [ENABLE]
    returns and leaves no entry under the setting's key; a second call in a
    row returns too and leaves the registry as the first one left it. *)
Theorem enable_twice
    (settings : settings_module) (s : setting) (self : BaseGUI) :
  let once := setter settings s (ENABLE settings) self in
  let twice := setter settings s (ENABLE settings) (snd once) in
  fst once = Return tt /\
  ~ In (setting_key s) (Dict.keys (_javascript_settings (snd once))) /\
  fst twice = Return tt /\
  ~ In (setting_key s) (Dict.keys (_javascript_settings (snd twice))) /\
  _javascript_settings (snd twice) = _javascript_settings (snd once).
Proof.
  destruct s; cbn [setter setting_key]; cbv zeta;
    rewrite ?right_click_setting_run, ?text_selection_setting_run,
      ?Z.eqb_refl;
    cbn [fst snd applied _javascript_settings];
    rewrite DictFacts.pop_pop;
    repeat split; apply DictFacts.get_None_keys, DictFacts.get_pop_same.
Qed.

(** C6: the constructor and the application singleton.  With an application
    already in the process, construction raises [RuntimeError] unless
    [allow_overwrite] is passed; with the flag the process keeps its
    application, none is constructed, and the instance built holds the
    existing one; with no application one is constructed from [sys.argv]
    and becomes the instance of the process, and the instance built holds
    it.  Past that choice the constructor returns whenever the window is to
    be maximized or the geometry fits C [int]s; otherwise the toolkit's
    [OverflowError] leaves it. *)
Theorem init_singleton (title_ : string) (width height x_pos y_pos : Z)
    (maximized_ plugins_ developer_mode_ allow_overwrite : bool)
    (p : process) :
  match instance p with
  | Some a =>
      if allow_overwrite then
        snd (__init__ title_ width height x_pos y_pos maximized_ plugins_
                      developer_mode_ allow_overwrite p) = p /\
        if maximized_ || fits_c_int width height x_pos y_pos then
          exists self,
            fst (__init__ title_ width height x_pos y_pos maximized_
                          plugins_ developer_mode_ allow_overwrite p) =
              Return self /\
            app self = a
        else
          fst (__init__ title_ width height x_pos y_pos maximized_ plugins_
                        developer_mode_ allow_overwrite p) =
            Raise OverflowError
      else
        __init__ title_ width height x_pos y_pos maximized_ plugins_
             developer_mode_ allow_overwrite p =
        (Raise (RuntimeError "Another htmlPy application is already running"),
         p)
  | None =>
      snd (__init__ title_ width height x_pos y_pos maximized_ plugins_
                    developer_mode_ allow_overwrite p) =
        mkProcess (Some (mkQApplication (constructed p) (sys_argv p)))
                  (sys_argv p) (S (constructed p)) /\
      if maximized_ || fits_c_int width height x_pos y_pos then
        exists self,
          fst (__init__ title_ width height x_pos y_pos maximized_
                        plugins_ developer_mode_ allow_overwrite p) =
            Return self /\
          app self = mkQApplication (constructed p) (sys_argv p)
      else
        fst (__init__ title_ width height x_pos y_pos maximized_ plugins_
                      developer_mode_ allow_overwrite p) =
          Raise OverflowError
  end.
Proof.
  rewrite init_cases. destruct (instance p) as [a|].
  - destruct allow_overwrite; [|reflexivity].
    split; [reflexivity|]. cbn [fst].
    destruct (init_window_run a title_ width height x_pos y_pos
                maximized_ plugins_ developer_mode_)
      as [(-> & self & -> & Ha & _)|(-> & ->)]; [|reflexivity].
    now exists self.
  - split; [reflexivity|]. cbn [fst].
    destruct (init_window_run (mkQApplication (constructed p) (sys_argv p))
                title_ width height x_pos y_pos
                maximized_ plugins_ developer_mode_)
      as [(-> & self & -> & Ha & _)|(-> & ->)]; [|reflexivity].
    now exists self.
Qed.


(** C8: on every "title changed" notification the window chrome title is set
    to the title the page has at that moment. *)
Theorem titleChanged_sets_window_title
    (settings : settings_module) (self : BaseGUI) (t : string) :
  reachable settings self ->
  fst (notify_titleChanged t self) = Return tt /\
  Browser.title (window (snd (notify_titleChanged t self))) = t /\
  Browser.windowTitle (window (snd (notify_titleChanged t self))) = t /\
  Browser.calls (window (snd (notify_titleChanged t self))) =
    Browser.calls (window self) ++ [CallSetWindowTitle t].
Proof.
  intros Hreach. apply reachable_inv in Hreach. destruct Hreach as [_ Hw].
  rewrite notify_titleChanged_run by exact Hw. repeat split.
Qed.

Lemma titleChanged_sets_window_title_witness :
  reachable example_settings example_overridden /\
  Browser.windowTitle (window example_overridden) = "Application" /\
  Browser.windowTitle
    (window (snd (notify_titleChanged "Inbox" example_overridden))) = "Inbox".
Proof.
  split; [exact example_overridden_reachable|].
  split; [reflexivity|].
  destruct (titleChanged_sets_window_title
              example_settings example_overridden "Inbox"
              example_overridden_reachable) as (_ & _ & Htitle & _).
  exact Htitle.
Defined.

(** C9: in every instance a program can hold, from construction on and after
    any setter call (returning or raising), the registry has only the two
    setting keys, each at most once, and holds under each only the
    non-default scripts of that setting; the enabling scripts are never
    stored. *)
Theorem registry_invariant (settings : settings_module) (self : BaseGUI) :
  reachable settings self ->
  (forall k v,
     In (k, v) (_javascript_settings self) ->
     (k = RIGHT_CLICK_SETTING_KEY /\
      (v = RIGHT_CLICK_DISABLE \/ v = RIGHT_CLICK_INPUTS_ONLY)) \/
     (k = TEXT_SELECTION_SETTING_KEY /\ v = TEXT_SELECTION_DISABLE)) /\
  NoDup (Dict.keys (_javascript_settings self)) /\
  (forall v,
     In v (Dict.values (_javascript_settings self)) ->
     v <> RIGHT_CLICK_ENABLE /\ v <> TEXT_SELECTION_ENABLE).
Proof.
  intros Hreach. apply reachable_inv in Hreach.
  destruct Hreach as [[Hall Hnd] _].
  rewrite Forall_forall in Hall. split; [|split].
  - intros k v Hin. exact (Hall (k, v) Hin).
  - exact Hnd.
  - intros v Hv. apply in_map_iff in Hv. destruct Hv as ([k v'] & <- & Hin).
    now apply (entry_ok_script (k, v')), Hall.
Qed.

Lemma registry_invariant_witness :
  reachable example_settings example_overridden /\
  _javascript_settings example_overridden =
    [(RIGHT_CLICK_SETTING_KEY, RIGHT_CLICK_DISABLE);
     (TEXT_SELECTION_SETTING_KEY, TEXT_SELECTION_DISABLE)] /\
  NoDup (Dict.keys (_javascript_settings example_overridden)).
Proof.
  split; [exact example_overridden_reachable|].
  split; [reflexivity|].
  exact (proj1 (proj2 (registry_invariant
                         example_settings example_overridden
                         example_overridden_reachable))).
Defined.

(** C10: a freshly constructed [Browser] has the window title ["Loading..."],
    set by its constructor before anything is connected or notified; a
    constructor of [BaseGUI] that returns has then set the window title to
    the title it was given.  (It raises only for an application that
    already runs, or for a geometry the toolkit does not take.) *)
Theorem window_title_placeholder :
  Browser.windowTitle Browser.__init__ = "Loading..." /\
  Browser.calls Browser.__init__ = [CallSetWindowTitle "Loading..."] /\
  forall (title_ : string) (width height x_pos y_pos : Z)
         (maximized_ plugins_ developer_mode_ allow_overwrite : bool)
         (p : process),
    match fst (__init__ title_ width height x_pos y_pos maximized_ plugins_
                    developer_mode_ allow_overwrite p) with
    | Return self =>
        Browser.windowTitle (window self) = title_ /\
        firstn 3 (Browser.calls (window self)) =
          [CallSetWindowTitle "Loading...";
           CallSetAttribute LocalContentCanAccessRemoteUrls true;
           CallSetWindowTitle title_]
    | Raise e =>
        (e = RuntimeError "Another htmlPy application is already running" /\
         instance p <> None /\ allow_overwrite = false) \/
        (e = OverflowError /\ maximized_ = false /\
         fits_c_int width height x_pos y_pos = false)
    end.
Proof.
  split; [reflexivity|]. split; [reflexivity|].
  intros. rewrite init_cases.
  assert (Hwindow : forall a,
    match init_window a title_ width height x_pos y_pos
                      maximized_ plugins_ developer_mode_ with
    | Return self =>
        Browser.windowTitle (window self) = title_ /\
        firstn 3 (Browser.calls (window self)) =
          [CallSetWindowTitle "Loading...";
           CallSetAttribute LocalContentCanAccessRemoteUrls true;
           CallSetWindowTitle title_]
    | Raise e =>
        e = OverflowError /\ maximized_ = false /\
        fits_c_int width height x_pos y_pos = false
    end).
  { intros a.
    destruct (init_window_run a title_ width height x_pos y_pos
                maximized_ plugins_ developer_mode_)
      as [(_ & self & -> & _ & _ & _ & _ & Ht & Hc & _)|(Hno & ->)].
    - split; [exact Ht|]. now rewrite Hc.
    - apply orb_false_iff in Hno. destruct Hno as [-> ->]. now repeat split. }
  destruct (instance p) as [a|].
  - destruct allow_overwrite; cbn [fst].
    + specialize (Hwindow a).
      destruct (init_window a title_ width height x_pos y_pos
                  maximized_ plugins_ developer_mode_); auto.
    + left. repeat split. discriminate.
  - cbn [fst].
    specialize (Hwindow (mkQApplication (constructed p) (sys_argv p))).
    destruct (init_window _ title_ width height x_pos y_pos
                maximized_ plugins_ developer_mode_); auto.
Qed.

(** ** Further properties of the code *)

Lemma Dict_pop_setitem (k v : string) (d : Dict.t) :
  Dict.pop k (Dict.setitem k v d) = Dict.pop k d.
Proof.
  induction d as [|[k' v'] rest IH]; simpl.
  - now rewrite String.eqb_refl.
  - destruct (k =? k') eqn:E; simpl; rewrite E; [reflexivity|].
    now rewrite IH.
Qed.

Lemma setting_keys_differ :
  RIGHT_CLICK_SETTING_KEY <> TEXT_SELECTION_SETTING_KEY.
Proof. discriminate. Qed.

(** What a setter does, by the branch its value takes. *)
Lemma setter_run (settings : settings_module) (s : setting) (value : Z)
    (self : BaseGUI) :
  (exists script f,
     setter settings s value self = (Return tt, applied script f self) /\
     In value (recognized settings s) /\
     (f = Dict.pop (setting_key s) \/
      exists v, f = Dict.setitem (setting_key s) v)) \/
  (exists msg,
     setter settings s value self = (Raise (ValueError msg), self) /\
     ~ In value (recognized settings s)).
Proof.
  destruct s; cbn [setter setting_key recognized].
  - rewrite right_click_setting_run.
    destruct (Z.eqb_spec value (ENABLE settings)) as [->|H1];
      [left; do 2 eexists; split; [reflexivity|]; split;
       [now left | now left]|].
    destruct (Z.eqb_spec value (DISABLE settings)) as [->|H2];
      [left; do 2 eexists; split; [reflexivity|]; split;
       [right; now left | right; eauto]|].
    destruct (Z.eqb_spec value (INPUTS_ONLY settings)) as [->|H3];
      [left; do 2 eexists; split; [reflexivity|]; split;
       [right; right; now left | right; eauto]|].
    right. eexists. split; [reflexivity|].
    intros [H|[H|[H|[]]]]; congruence.
  - rewrite text_selection_setting_run.
    destruct (Z.eqb_spec value (ENABLE settings)) as [->|H1];
      [left; do 2 eexists; split; [reflexivity|]; split;
       [now left | now left]|].
    destruct (Z.eqb_spec value (DISABLE settings)) as [->|H2];
      [left; do 2 eexists; split; [reflexivity|]; split;
       [right; now left | right; eauto]|].
    right. eexists. split; [reflexivity|].
    intros [H|[H|[]]]; congruence.
Qed.

Lemma setter_enable_run (settings : settings_module) (s : setting)
    (self : BaseGUI) :
  setter settings s (ENABLE settings) self =
  (Return tt, applied (enabling_script s) (Dict.pop (setting_key s)) self).
Proof.
  destruct s; cbn [setter setting_key enabling_script].
  - now rewrite right_click_setting_run, Z.eqb_refl.
  - now rewrite text_selection_setting_run, Z.eqb_refl.
Qed.



(** The reload on a wired instance with a good registry. *)
Lemma notify_loadFinished_calls (self : BaseGUI) :
  inv self ->
  notify_loadFinished self =
  (Return tt,
   mkBaseGUI (app self)
     (Browser.mk (Browser.windowTitle (window self))
        (Browser.title (window self)) (Browser.isMaximized (window self))
        (Browser.isVisible (window self)) (Browser.size (window self))
        (Browser.pos (window self)) (Browser.attributes (window self))
        (Browser.titleChanged (window self))
        (Browser.loadFinished (window self))
        (Browser.calls (window self) ++
         replay_batch (_javascript_settings self)))
     (_javascript_settings self)
     (_width self) (_height self) (_x self) (_y self)).
Proof.
  intros [Hd Hw]. rewrite notify_loadFinished_run by exact Hw.
  rewrite javascript_setting_call_run. cbv zeta.
  destruct self as [a w d wd ht x y]. cbn [_javascript_settings] in *.
  destruct d as [|kv rest].
  - cbn. rewrite app_nil_r. now destruct w.
  - rewrite registry_ok_join by (auto; discriminate). reflexivity.
Qed.

(** X1: each live property reads back what was just assigned to it: the read
    and the write function of [title], [plugins], [developer_mode] and
    [maximized] address the same state of the widget. *)
Theorem live_property_read_after_write
    (self : BaseGUI) (t : string) (b : bool) :
  fst ((LiveProperty_set title t ;; LiveProperty_get title) self) = Return t /\
  fst ((LiveProperty_set plugins b ;; LiveProperty_get plugins) self) =
    Return b /\
  fst ((LiveProperty_set developer_mode b ;;
        LiveProperty_get developer_mode) self) = Return b /\
  fst ((LiveProperty_set maximized b ;; LiveProperty_get maximized) self) =
    Return b.
Proof. destruct b; repeat split. Qed.

(** X2: assigning one of the two flags changes that web attribute alone: the
    other flag and the remote-access attribute read as before, and so do the
    title and the maximized state; the registry and the cached geometry are
    not touched. *)
Theorem flag_assignment_is_local (self : BaseGUI) (b : bool) :
  let after_plugins := snd (LiveProperty_set plugins b self) in
  let after_developer := snd (LiveProperty_set developer_mode b self) in
  fst (LiveProperty_get developer_mode after_plugins) =
    fst (LiveProperty_get developer_mode self) /\
  fst (LiveProperty_get plugins after_developer) =
    fst (LiveProperty_get plugins self) /\
  Browser.testAttribute LocalContentCanAccessRemoteUrls
    (window after_plugins) =
    Browser.testAttribute LocalContentCanAccessRemoteUrls (window self) /\
  Browser.testAttribute LocalContentCanAccessRemoteUrls
    (window after_developer) =
    Browser.testAttribute LocalContentCanAccessRemoteUrls (window self) /\
  fst (LiveProperty_get title after_plugins) =
    fst (LiveProperty_get title self) /\
  fst (LiveProperty_get title after_developer) =
    fst (LiveProperty_get title self) /\
  fst (LiveProperty_get maximized after_plugins) =
    fst (LiveProperty_get maximized self) /\
  fst (LiveProperty_get maximized after_developer) =
    fst (LiveProperty_get maximized self) /\
  _javascript_settings after_plugins = _javascript_settings self /\
  _javascript_settings after_developer = _javascript_settings self /\
  (_width after_plugins, _height after_plugins,
   _x after_plugins, _y after_plugins) =
    (_width self, _height self, _x self, _y self) /\
  (_width after_developer, _height after_developer,
   _x after_developer, _y after_developer) =
    (_width self, _height self, _x self, _y self).
Proof. cbv zeta. repeat split. Qed.

Lemma init_local_content title_ width height x_pos y_pos maximized_ plugins_
      developer_mode_ allow_overwrite p self p' :
  __init__ title_ width height x_pos y_pos maximized_ plugins_
       developer_mode_ allow_overwrite p = (Return self, p') ->
  Browser.testAttribute LocalContentCanAccessRemoteUrls (window self) = true.
Proof.
  intros H. apply init_returns in H. destruct H as [a Ha].
  destruct (init_window_run a title_ width height x_pos y_pos
              maximized_ plugins_ developer_mode_)
    as [(_ & s & Hs & _ & _ & _ & _ & _ & _ & Hattr & _)|(_ & Hraise)];
    [|congruence].
  assert (self = s) as -> by congruence. exact Hattr.
Qed.

Lemma perform_local_content (settings : settings_module) (a : action)
    (self : BaseGUI) :
  inv self ->
  Browser.testAttribute LocalContentCanAccessRemoteUrls (window self) = true ->
  Browser.testAttribute LocalContentCanAccessRemoteUrls
    (window (snd (perform settings a self))) = true.
Proof.
  intros Hinv Hattr. destruct a as [v|v|s| |b|s|b|b| |t]; cbn [perform].
  - change (right_click_setting settings v self)
      with (setter settings right_click v self).
    destruct (setter_run settings right_click v self)
      as [(script & f & -> & _)|(msg & -> & _)]; exact Hattr.
  - change (text_selection_setting settings v self)
      with (setter settings text_selection v self).
    destruct (setter_run settings text_selection v self)
      as [(script & f & -> & _)|(msg & -> & _)]; exact Hattr.
  - exact Hattr.
  - rewrite auto_resize_run.
    destruct (Browser.isMaximized (window self)); [exact Hattr|].
    destruct (c_int (_width self) && c_int (_height self)); [|exact Hattr].
    destruct (c_int (_x self) && c_int (_y self)); exact Hattr.
  - unfold LiveProperty_set, bind. cbn [maximized write_function].
    rewrite maximized_write_run. destruct b; exact Hattr.
  - exact Hattr.
  - exact Hattr.
  - exact Hattr.
  - rewrite notify_loadFinished_calls by exact Hinv. exact Hattr.
  - rewrite notify_titleChanged_run by apply Hinv. exact Hattr.
Qed.

(** X3: the constructor lets local content reach remote URLs, and no method
    of the wrapper ever takes that back: the attribute is set on every
    instance a program can hold. *)
Theorem local_content_always_enabled
    (settings : settings_module) (self : BaseGUI) :
  reachable settings self ->
  Browser.testAttribute LocalContentCanAccessRemoteUrls (window self) = true.
Proof.
  induction 1 as [? ? ? ? ? ? ? ? ? ? ? ? Hinit|self a Hreach IH].
  - eapply init_local_content, Hinit.
  - apply perform_local_content; [|exact IH].
    eapply reachable_inv, Hreach.
Qed.

(** The example instance after both flags were switched on. *)
Lemma example_flags_reachable :
  reachable example_settings
    (run example_settings [set_plugins true; set_developer_mode true]
         example_overridden).
Proof. apply reachable_run, example_overridden_reachable. Qed.

Lemma local_content_always_enabled_witness :
  Browser.testAttribute LocalContentCanAccessRemoteUrls
    (window (run example_settings [set_plugins true; set_developer_mode true]
                 example_overridden)) = true.
Proof.
  exact (local_content_always_enabled example_settings _
           example_flags_reachable).
Defined.

(** X4: once [maximized = True] was assigned, [auto_resize] does nothing: the
    window got [showMaximized()] and no resize or move follows, and the
    cached geometry stays as it was. *)
Theorem maximized_true_blocks_auto_resize (self : BaseGUI) :
  let self' := snd ((LiveProperty_set maximized true ;; auto_resize) self) in
  fst ((LiveProperty_set maximized true ;; auto_resize) self) = Return tt /\
  Browser.calls (window self') =
    Browser.calls (window self) ++ [CallShowMaximized] /\
  Browser.size (window self') = Browser.size (window self) /\
  Browser.pos (window self') = Browser.pos (window self) /\
  (_width self', _height self', _x self', _y self') =
    (_width self, _height self, _x self, _y self) /\
  snd (auto_resize self') = self'.
Proof. cbv zeta. repeat split. Qed.

(** X5: the title property is live on the window chrome, and the chrome
    follows the page: after a title was assigned, the next "title changed"
    notification replaces it, and the property then reads the page's title;
    assigning the property afterwards changes the chrome and not the page's
    title. *)
Theorem titleChanged_overrides_title_property
    (settings : settings_module) (self : BaseGUI) (v t : string) :
  reachable settings self ->
  fst (LiveProperty_get title
         (snd ((LiveProperty_set title v ;; notify_titleChanged t) self))) =
    Return t /\
  fst (LiveProperty_get title
         (snd ((notify_titleChanged t ;; LiveProperty_set title v) self))) =
    Return v /\
  Browser.title
    (window (snd ((notify_titleChanged t ;; LiveProperty_set title v) self))) =
    t.
Proof.
  intros Hreach. apply reachable_inv in Hreach. destruct Hreach as [_ Hw].
  assert (Hset_then_notify :
            (LiveProperty_set title v ;; notify_titleChanged t) self =
            notify_titleChanged t (snd (LiveProperty_set title v self)))
    by reflexivity.
  assert (Hnotify_then_set :
            (notify_titleChanged t ;; LiveProperty_set title v) self =
            LiveProperty_set title v (snd (notify_titleChanged t self))).
  { unfold bind at 1. now rewrite notify_titleChanged_run by exact Hw. }
  rewrite Hset_then_notify, Hnotify_then_set.
  rewrite !notify_titleChanged_run by exact Hw.
  repeat split.
Qed.

Lemma titleChanged_overrides_title_property_witness :
  reachable example_settings example_app /\
  fst (LiveProperty_get title
         (snd ((LiveProperty_set title "Mail" ;; notify_titleChanged "Inbox")
                 example_app))) = Return "Inbox".
Proof.
  split; [exact example_app_reachable|].
  exact (proj1 (titleChanged_overrides_title_property
                  example_settings example_app "Mail" "Inbox"
                  example_app_reachable)).
Defined.




(** X7: a setter never changes what the registry holds under another key,
    whatever value it is called with, recognized or not. *)
Theorem setter_keeps_other_settings
    (settings : settings_module) (s : setting) (value : Z) (self : BaseGUI)
    (k : string) :
  k <> setting_key s ->
  Dict.get k (_javascript_settings (snd (setter settings s value self))) =
  Dict.get k (_javascript_settings self).
Proof.
  intros Hk.
  destruct (setter_run settings s value self)
    as [(script & f & -> & _ & [->|[v ->]])|(msg & -> & _)];
    cbn [snd applied _javascript_settings].
  - now apply DictFacts.get_pop_other.
  - now apply DictFacts.get_setitem_other.
  - reflexivity.
Qed.

Lemma setter_keeps_other_settings_witness :
  TEXT_SELECTION_SETTING_KEY <> setting_key right_click /\
  Dict.get TEXT_SELECTION_SETTING_KEY
    (_javascript_settings
       (snd (right_click_setting example_settings 1 example_overridden))) =
  Some TEXT_SELECTION_DISABLE.
Proof.
  assert (Hk : TEXT_SELECTION_SETTING_KEY <> setting_key right_click)
    by discriminate.
  split; [exact Hk|].
  etransitivity;
    [exact (setter_keeps_other_settings
              example_settings right_click 1 example_overridden
              TEXT_SELECTION_SETTING_KEY Hk)
    |reflexivity].
Defined.

(** X8: [ENABLE] on a setting that has no override still evaluates the
    enabling script, once, and leaves the registry exactly as it was: popping
    the missing key is no error. *)
Theorem enable_without_override
    (settings : settings_module) (s : setting) (self : BaseGUI) :
  ~ In (setting_key s) (Dict.keys (_javascript_settings self)) ->
  fst (setter settings s (ENABLE settings) self) = Return tt /\
  _javascript_settings (snd (setter settings s (ENABLE settings) self)) =
    _javascript_settings self /\
  Browser.calls (window (snd (setter settings s (ENABLE settings) self))) =
    Browser.calls (window self) ++
    [CallEvaluateJavaScript (enabling_script s)].
Proof.
  intros Habsent. rewrite setter_enable_run.
  cbn [fst snd applied _javascript_settings window].
  rewrite DictFacts.pop_absent by exact Habsent.
  repeat split.
Qed.

Lemma enable_without_override_witness :
  ~ In (setting_key right_click) (Dict.keys (_javascript_settings example_app))
  /\
  Browser.evaluated
    (Browser.calls
       (window (snd (right_click_setting example_settings 1 example_app)))) =
  ["document.oncontextmenu = null;"].
Proof.
  assert (Habsent : ~ In (setting_key right_click)
                         (Dict.keys (_javascript_settings example_app)))
    by (intros []).
  split; [exact Habsent|].
  destruct (enable_without_override
              example_settings right_click example_app Habsent)
    as (_ & _ & Hcalls).
  exact (f_equal Browser.evaluated Hcalls).
Defined.

(** X9: [ENABLE] undoes whatever the same setter was called with before: on
    a setting without an override, any call of its setter followed by
    [ENABLE] brings the registry back to exactly what it was. *)
Theorem enable_undoes_setter
    (settings : settings_module) (s : setting) (value : Z) (self : BaseGUI) :
  ~ In (setting_key s) (Dict.keys (_javascript_settings self)) ->
  _javascript_settings
    (snd (setter settings s (ENABLE settings)
            (snd (setter settings s value self)))) =
  _javascript_settings self.
Proof.
  intros Habsent. rewrite setter_enable_run.
  cbn [snd applied _javascript_settings].
  destruct (setter_run settings s value self)
    as [(script & f & -> & _ & [->|[v ->]])|(msg & -> & _)];
    cbn [snd applied _javascript_settings].
  - rewrite DictFacts.pop_pop. now apply DictFacts.pop_absent.
  - rewrite Dict_pop_setitem. now apply DictFacts.pop_absent.
  - now apply DictFacts.pop_absent.
Qed.

Lemma enable_undoes_setter_witness :
  ~ In (setting_key right_click) (Dict.keys (_javascript_settings example_app))
  /\
  _javascript_settings
    (run example_settings
         [do_right_click_setting 2; do_right_click_setting 1] example_app) =
  [].
Proof.
  assert (Habsent : ~ In (setting_key right_click)
                         (Dict.keys (_javascript_settings example_app)))
    by (intros []).
  split; [exact Habsent|].
  exact (enable_undoes_setter example_settings right_click 2 example_app
           Habsent).
Defined.

(** The branch a setter takes depends on the value alone. *)
Lemma setter_branch (settings : settings_module) (s : setting) (value : Z) :
  (exists script f,
     (forall self,
        setter settings s value self = (Return tt, applied script f self)) /\
     (f = Dict.pop (setting_key s) \/
      exists v, f = Dict.setitem (setting_key s) v)) \/
  (exists msg,
     (forall self,
        setter settings s value self = (Raise (ValueError msg), self)) /\
     ~ In value (recognized settings s)).
Proof.
  destruct s; cbn [setter setting_key recognized].
  - destruct (Z.eqb_spec value (ENABLE settings)) as [->|H1].
    { left. do 2 eexists. split; [|now left].
      intros self. now rewrite right_click_setting_run, Z.eqb_refl. }
    apply Z.eqb_neq in H1.
    destruct (Z.eqb_spec value (DISABLE settings)) as [->|H2].
    { left. do 2 eexists. split; [|right; eauto].
      intros self. now rewrite right_click_setting_run, H1, Z.eqb_refl. }
    apply Z.eqb_neq in H2.
    destruct (Z.eqb_spec value (INPUTS_ONLY settings)) as [->|H3].
    { left. do 2 eexists. split; [|right; eauto].
      intros self. now rewrite right_click_setting_run, H1, H2, Z.eqb_refl. }
    right. eexists. split.
    + intros self. rewrite right_click_setting_run, H1, H2.
      apply Z.eqb_neq in H3. now rewrite H3.
    + apply Z.eqb_neq in H1, H2. intros [H|[H|[H|[]]]]; congruence.
  - destruct (Z.eqb_spec value (ENABLE settings)) as [->|H1].
    { left. do 2 eexists. split; [|now left].
      intros self. now rewrite text_selection_setting_run, Z.eqb_refl. }
    apply Z.eqb_neq in H1.
    destruct (Z.eqb_spec value (DISABLE settings)) as [->|H2].
    { left. do 2 eexists. split; [|right; eauto].
      intros self. now rewrite text_selection_setting_run, H1, Z.eqb_refl. }
    right. eexists. split.
    + intros self. rewrite text_selection_setting_run, H1.
      apply Z.eqb_neq in H2. now rewrite H2.
    + apply Z.eqb_neq in H1. intros [H|[H|[]]]; congruence.
Qed.

(** X10: the last call of a setter decides.  After two calls of the same
    setter, the second with a recognized value, every key of the registry
    holds what it would hold after the second call alone, whatever the first
    call was. *)
Theorem last_setting_wins
    (settings : settings_module) (s : setting) (v1 v2 : Z) (self : BaseGUI)
    (k : string) :
  In v2 (recognized settings s) ->
  Dict.get k
    (_javascript_settings
       (snd (setter settings s v2 (snd (setter settings s v1 self))))) =
  Dict.get k (_javascript_settings (snd (setter settings s v2 self))).
Proof.
  intros Hv2.
  destruct (setter_branch settings s v2)
    as [(script2 & f2 & Hrun2 & Hf2)|(msg & _ & Hout)]; [|contradiction].
  rewrite !Hrun2. cbn [snd applied _javascript_settings].
  destruct (setter_branch settings s v1)
    as [(script1 & f1 & Hrun1 & Hf1)|(msg & Hrun1 & _)];
    rewrite Hrun1; cbn [snd applied _javascript_settings]; [|reflexivity].
  destruct (string_dec k (setting_key s)) as [->|Hk].
  - destruct Hf2 as [->|[x2 ->]].
    + now rewrite !DictFacts.get_pop_same.
    + now rewrite !DictFacts.get_setitem_same.
  - destruct Hf2 as [->|[x2 ->]], Hf1 as [->|[x1 ->]];
      repeat first [ rewrite DictFacts.get_pop_other by exact Hk
                   | rewrite DictFacts.get_setitem_other by exact Hk ];
      reflexivity.
Qed.

Lemma last_setting_wins_witness :
  In 2%Z (recognized example_settings right_click) /\
  Dict.get RIGHT_CLICK_SETTING_KEY
    (_javascript_settings
       (run example_settings
            [do_right_click_setting 0; do_right_click_setting 2]
            example_app)) =
  Some RIGHT_CLICK_INPUTS_ONLY.
Proof.
  assert (Hv2 : In 2%Z (recognized example_settings right_click))
    by (right; right; now left).
  split; [exact Hv2|].
  etransitivity;
    [exact (last_setting_wins example_settings right_click 0 2 example_app
              RIGHT_CLICK_SETTING_KEY Hv2)
    |reflexivity].
Defined.

(** X11: the registry never holds more than two scripts, so a reload replays
    at most one script per setting. *)
Theorem registry_at_most_two (settings : settings_module) (self : BaseGUI) :
  reachable settings self ->
  (List.length (_javascript_settings self) <= 2)%nat.
Proof.
  intros Hreach. apply reachable_inv in Hreach.
  destruct Hreach as [[Hall Hnd] _].
  unfold Dict.keys in Hnd.
  rewrite <- (List.length_map fst).
  apply (NoDup_incl_length Hnd
           (l' := [RIGHT_CLICK_SETTING_KEY; TEXT_SELECTION_SETTING_KEY])).
  intros k Hk. apply in_map_iff in Hk. destruct Hk as (kv & <- & Hin).
  rewrite Forall_forall in Hall.
  destruct (Hall kv Hin) as [[-> _]|[-> _]]; [now left | right; now left].
Qed.

Lemma registry_at_most_two_witness :
  (List.length (_javascript_settings
             (run example_settings
                  [do_right_click_setting 2; do_text_selection_setting 0;
                   do_right_click_setting 0] example_app)) <= 2)%nat.
Proof.
  apply (registry_at_most_two example_settings).
  apply reachable_run, example_app_reachable.
Defined.

(** X12: a script evaluated through [evaluate_javascript] is not persistent.
    It is evaluated once and does not enter the registry, so the next reload
    replays exactly what it would have replayed without it. *)
Theorem evaluate_javascript_not_persistent
    (settings : settings_module) (self : BaseGUI) (script : string) :
  reachable settings self ->
  _javascript_settings (snd (evaluate_javascript script self)) =
    _javascript_settings self /\
  Browser.calls
    (window (snd (notify_loadFinished
                    (snd (evaluate_javascript script self))))) =
    Browser.calls (window self) ++
    [CallEvaluateJavaScript script] ++
    replay_batch (_javascript_settings self) /\
  Browser.calls (window (snd (notify_loadFinished self))) =
    Browser.calls (window self) ++ replay_batch (_javascript_settings self).
Proof.
  intros Hreach. apply reachable_inv in Hreach.
  rewrite evaluate_javascript_run. cbn [snd].
  rewrite !notify_loadFinished_calls by exact Hreach.
  cbn [snd window _javascript_settings Browser.calls
       Browser.evaluateJavaScript].
  unfold Browser.log. rewrite <- app_assoc. repeat split.
Qed.

Lemma evaluate_javascript_not_persistent_witness :
  reachable example_settings example_app /\
  Browser.evaluated
    (Browser.calls
       (window (run example_settings
                    [do_evaluate_javascript "document.title = 'x';";
                     on_loadFinished] example_app))) =
  ["document.title = 'x';"].
Proof.
  split; [exact example_app_reachable|].
  destruct (evaluate_javascript_not_persistent
              example_settings example_app "document.title = 'x';"
              example_app_reachable) as (_ & Hcalls & _).
  exact (f_equal Browser.evaluated Hcalls).
Defined.

(** X14: what a constructor that returns leaves behind.  The registry is
    empty, the cached geometry is the geometry it was given, each live
    property reads back its argument, and the widget was resized and moved
    to that geometry exactly when the window was not to be maximized: then
    the geometry fits C [int]s and the widget has taken the size within its
    bounds, while the cache keeps the integers as given. *)
Theorem constructor_effects (title_ : string) (width height x_pos y_pos : Z)
    (maximized_ plugins_ developer_mode_ allow_overwrite : bool)
    (p p' : process) (self : BaseGUI) :
  __init__ title_ width height x_pos y_pos maximized_ plugins_
       developer_mode_ allow_overwrite p = (Return self, p') ->
  _javascript_settings self = Dict.empty /\
  (_width self, _height self, _x self, _y self) =
    (width, height, x_pos, y_pos) /\
  fst (LiveProperty_get title self) = Return title_ /\
  fst (LiveProperty_get plugins self) = Return plugins_ /\
  fst (LiveProperty_get developer_mode self) = Return developer_mode_ /\
  fst (LiveProperty_get maximized self) = Return maximized_ /\
  Browser.calls (window self) =
    [CallSetWindowTitle "Loading...";
     CallSetAttribute LocalContentCanAccessRemoteUrls true;
     CallSetWindowTitle title_;
     CallSetAttribute PluginsEnabled plugins_;
     CallSetAttribute DeveloperExtrasEnabled developer_mode_] ++
    (if maximized_ then [CallShowMaximized]
     else [CallShowNormal; CallResize width height; CallMove x_pos y_pos]) /\
  maximized_ || fits_c_int width height x_pos y_pos = true /\
  (Browser.size (window self), Browser.pos (window self)) =
    if maximized_
    then (Browser.size Browser.QWebView_init,
          Browser.pos Browser.QWebView_init)
    else ((Browser.bounded width, Browser.bounded height), (x_pos, y_pos)).
Proof.
  intros H. apply init_returns in H. destruct H as [a Ha].
  destruct (init_window_run a title_ width height x_pos y_pos
              maximized_ plugins_ developer_mode_)
    as [(Hfits & s & Hs & _ & Hd & Hcache & _ & Ht & Hcalls & _ & Hflags
         & Hgeometry)|(_ & Hraise)];
    [|congruence].
  assert (self = s) as -> by congruence.
  inversion Hflags as [[Hp Hdev Hm]].
  unfold LiveProperty_get. cbn [title plugins developer_mode maximized
                                 read_function ask maximized_read fst].
  rewrite Ht, Hp, Hdev, Hm. repeat split; assumption.
Qed.

Lemma constructor_effects_witness :
  fst (LiveProperty_get maximized example_maximized) = Return true /\
  Browser.calls (window example_maximized) =
    [CallSetWindowTitle "Loading...";
     CallSetAttribute LocalContentCanAccessRemoteUrls true;
     CallSetWindowTitle "Application";
     CallSetAttribute PluginsEnabled false;
     CallSetAttribute DeveloperExtrasEnabled false;
     CallShowMaximized].
Proof.
  destruct (constructor_effects
              "Application" 800 600 10 10 true false false false
              fresh_process
              (snd (__init__ "Application" 800 600 10 10 true false false
                             false fresh_process))
              example_maximized eq_refl)
    as (_ & _ & _ & _ & _ & Hmax & Hcalls & _).
  split; [exact Hmax | exact Hcalls].
Defined.

Lemma String_length_append (a b : string) :
  String.length (a ++ b) = (String.length a + String.length b)%nat.
Proof.
  induction a as [|c a IH]; cbn [String.append String.length Nat.add];
    [reflexivity | now rewrite IH].
Qed.

Lemma String_append_inj_l (s a b : string) :
  (s ++ a)%string = (s ++ b)%string -> a = b.
Proof.
  induction s as [|c s IH]; cbn [String.append]; intros H; [exact H|].
  injection H as H. now apply IH.
Qed.

Lemma String_append_inj_r (s a b : string) :
  (a ++ s)%string = (b ++ s)%string -> a = b.
Proof.
  revert b. induction a as [|c a IH]; intros [|c' b] H.
  - reflexivity.
  - apply (f_equal String.length) in H.
    cbn [String.append String.length] in H.
    rewrite String_length_append in H. lia.
  - apply (f_equal String.length) in H.
    cbn [String.append String.length] in H.
    rewrite String_length_append in H. lia.
  - cbn [String.append] in H. injection H as Hc H.
    subst c'. f_equal. now apply IH.
Qed.

(** X15: [html_with_string] is injective: two pages built by the test helper
    are equal only when their bodies are, so the tests' comparison with
    [html_with_string("true")] tells the two outcomes of the simulated right
    click apart. *)
Theorem html_with_string_injective (a b : string) :
  html_with_string a = html_with_string b -> a = b.
Proof.
  unfold html_with_string. intros H.
  apply String_append_inj_l in H.
  now apply String_append_inj_r in H.
Qed.

Lemma html_with_string_injective_witness :
  html_with_string "true" = "<html><head></head><body>true</body></html>" /\
  "true" = "true".
Proof.
  split; [reflexivity|].
  exact (html_with_string_injective "true" "true" eq_refl).
Defined.

(** The two outcomes the tests compare the page with are different pages. *)
Example html_outcomes_differ :
  html_with_string "true" <> html_with_string "false".
Proof. discriminate. Qed.

(** X16: a setter called with a value it recognizes makes exactly one call
    to the widget, the evaluation of the script of that value for its own
    setting, and touches nothing else: the window's title, state, geometry
    and web attributes and the cached geometry are as before. *)
Theorem setter_only_evaluates
    (settings : settings_module) (s : setting) (value : Z) (self : BaseGUI) :
  In value (recognized settings s) ->
  In (setting_script settings s value)
     (match s with
      | right_click =>
          [RIGHT_CLICK_ENABLE; RIGHT_CLICK_DISABLE; RIGHT_CLICK_INPUTS_ONLY]
      | text_selection => [TEXT_SELECTION_ENABLE; TEXT_SELECTION_DISABLE]
      end) /\
  fst (setter settings s value self) = Return tt /\
  Browser.calls (window (snd (setter settings s value self))) =
    Browser.calls (window self) ++
    [CallEvaluateJavaScript (setting_script settings s value)] /\
  Browser.windowTitle (window (snd (setter settings s value self))) =
    Browser.windowTitle (window self) /\
  Browser.isMaximized (window (snd (setter settings s value self))) =
    Browser.isMaximized (window self) /\
  (Browser.size (window (snd (setter settings s value self))),
   Browser.pos (window (snd (setter settings s value self)))) =
    (Browser.size (window self), Browser.pos (window self)) /\
  Browser.attributes (window (snd (setter settings s value self))) =
    Browser.attributes (window self) /\
  (_width (snd (setter settings s value self)),
   _height (snd (setter settings s value self)),
   _x (snd (setter settings s value self)),
   _y (snd (setter settings s value self))) =
    (_width self, _height self, _x self, _y self).
Proof.
  intros Hin. unfold setting_script.
  destruct s; cbn [setter recognized enabling_script disabling_script] in *.
  - rewrite right_click_setting_run.
    destruct (Z.eqb_spec value (ENABLE settings)) as [_|H1];
      [split; [now left | repeat split]|].
    destruct (Z.eqb_spec value (DISABLE settings)) as [_|H2];
      [split; [right; now left | repeat split]|].
    destruct (Z.eqb_spec value (INPUTS_ONLY settings)) as [_|H3];
      [split; [right; right; now left | repeat split]|].
    exfalso. destruct Hin as [H|[H|[H|[]]]]; congruence.
  - rewrite text_selection_setting_run.
    destruct (Z.eqb_spec value (ENABLE settings)) as [_|H1];
      [split; [now left | repeat split]|].
    destruct (Z.eqb_spec value (DISABLE settings)) as [_|H2];
      [split; [right; now left | repeat split]|].
    exfalso. destruct Hin as [H|[H|[]]]; congruence.
Qed.

Lemma setter_only_evaluates_witness :
  In 0%Z (recognized example_settings text_selection) /\
  Browser.calls
    (window (snd (text_selection_setting example_settings 0 example_app))) =
  Browser.calls (window example_app) ++
  [CallEvaluateJavaScript TEXT_SELECTION_DISABLE].
Proof.
  assert (Hin : In 0%Z (recognized example_settings text_selection))
    by (right; now left).
  split; [exact Hin|].
  destruct (setter_only_evaluates
              example_settings text_selection 0 example_app Hin)
    as (_ & _ & Hcalls & _).
  exact Hcalls.
Defined.
